(** * A shallow embedding of [csvapi.py]

    The service reads an uploaded CSV file into a pandas frame, picks an
    amount, a category and a date column from the header names, cleans the
    three columns cell by cell and returns the rounded sum of the amounts of
    the rows whose category looks like food.

    Python text is a sequence of Unicode code points; exceptions are values
    of a result type; the frame is a list of labelled columns that
    assignments update in place.  What the interpreter and the libraries
    supply (binary64 parsing and printing, Unicode lower-casing,
    [pd.to_datetime], [pd.read_csv], [Series.sum], [round]) is taken as two
    interfaces, [Interp] and [Library]; every definition of the program is
    stated over them, and so is every property. *)

From Stdlib Require Import String Ascii List ZArith NArith Bool Lia.
From Stdlib Require Import DecimalString.
From Stdlib Require Import Floats.SpecFloat.
Import ListNotations.

(** ** Python text *)

Definition codepoint := N.
Definition pystr := list codepoint.

(** The text of an ASCII literal of the source. *)
Definition lit (s : string) : pystr :=
  map N_of_ascii (list_ascii_of_string s).

Module Text.

Definition eqb (a b : pystr) : bool :=
  if list_eq_dec N.eq_dec a b then true else false.

(** [str.isspace] on one code point, which is also what [\s] matches in a
    pattern over text (CPython's [_PyUnicode_IsWhitespace]). *)
Definition isspace (c : codepoint) : bool :=
  ((9 <=? c) && (c <=? 13) || (28 <=? c) && (c <=? 32)
   || (c =? 133) || (c =? 160) || (c =? 5760)
   || (8192 <=? c) && (c <=? 8202)
   || (c =? 8232) || (c =? 8233) || (c =? 8239) || (c =? 8287)
   || (c =? 12288))%N.

Fixpoint lstrip (s : pystr) : pystr :=
  match s with
  | c :: t => if isspace c then lstrip t else s
  | [] => []
  end.

Definition rstrip (s : pystr) : pystr := rev (lstrip (rev s)).

(** [s.strip()] *)
Definition strip (s : pystr) : pystr := rstrip (lstrip s).

(** [s.startswith(p)] *)
Fixpoint startswith (p s : pystr) : bool :=
  match p, s with
  | [], _ => true
  | a :: p', b :: s' => (a =? b)%N && startswith p' s'
  | _ :: _, [] => false
  end.

(** [s.endswith(p)] *)
Definition endswith (p s : pystr) : bool := startswith (rev p) (rev s).

(** [p in s] *)
Fixpoint contains (p s : pystr) : bool :=
  startswith p s ||
  match s with
  | [] => false
  | _ :: t => contains p t
  end.

(** A slice bound, clamped the way [s[i:j]] clamps it. *)
Definition clamp (len i : Z) : Z :=
  if (i <? 0)%Z then Z.max 0 (len + i) else Z.min i len.

(** [s[i:j]] *)
Definition slice (i j : Z) (s : pystr) : pystr :=
  let len := Z.of_nat (List.length s) in
  let a := clamp len i in
  let b := clamp len j in
  firstn (Z.to_nat (b - a)) (skipn (Z.to_nat a) s).

(** [sep.join(parts)] *)
Fixpoint join (sep : pystr) (parts : list pystr) : pystr :=
  match parts with
  | [] => []
  | [p] => p
  | p :: rest => p ++ sep ++ join sep rest
  end.

(** The text does not start with white space. *)
Definition starts_black (s : pystr) : Prop :=
  match s with
  | c :: _ => isspace c = false
  | [] => True
  end.

(** [str(n)] for an integer. *)
Definition of_Z (z : Z) : pystr := lit (NilZero.string_of_int (Z.to_int z)).

End Text.

(** ** Patterns

    The two patterns of the program: one character class, replaced
    everywhere by [re.sub], and literal alternatives separated by [|],
    searched by [Series.str.contains]. *)

Module Re.

Inductive item :=
| Chr (c : codepoint)   (* the character itself *)
| Space.                (* [\s] *)

Definition item_matches (c : codepoint) (it : item) : bool :=
  match it with
  | Chr d => (c =? d)%N
  | Space => Text.isspace c
  end.

Definition in_class (cls : list item) (c : codepoint) : bool :=
  existsb (item_matches c) cls.

(** [re.sub('[cls]', repl, s)]: every character of the class is replaced. *)
Definition sub_class (cls : list item) (repl s : pystr) : pystr :=
  flat_map (fun c => if in_class cls c then repl else [c]) s.

(** The alternatives of a pattern whose only metacharacter is [|]. *)
Fixpoint alternatives (pat : pystr) : list pystr :=
  match pat with
  | [] => [[]]
  | c :: t =>
      if (c =? 124)%N then [] :: alternatives t
      else match alternatives t with
           | h :: r => (c :: h) :: r
           | [] => [[c]]
           end
  end.

(** [re.search(pat, s) is not None] for such a pattern. *)
Definition search (pat s : pystr) : bool :=
  existsb (fun alt => Text.contains alt s) (alternatives pat).

End Re.

(** ** Exceptions and results *)

Inductive exc_class :=
| BaseException | Exception
| KeyboardInterrupt | CancelledError
| ValueError | TypeError | AttributeError
| LookupError | IndexError | KeyError
| UnicodeDecodeError | EmptyDataError | ParserError
| HTTPException_class.

Definition exc_class_eqb (a b : exc_class) : bool :=
  match a, b with
  | BaseException, BaseException | Exception, Exception
  | KeyboardInterrupt, KeyboardInterrupt | CancelledError, CancelledError
  | ValueError, ValueError | TypeError, TypeError
  | AttributeError, AttributeError
  | LookupError, LookupError | IndexError, IndexError | KeyError, KeyError
  | UnicodeDecodeError, UnicodeDecodeError
  | EmptyDataError, EmptyDataError | ParserError, ParserError
  | HTTPException_class, HTTPException_class => true
  | _, _ => false
  end.

(** The direct base class. *)
Definition base (c : exc_class) : option exc_class :=
  match c with
  | BaseException => None
  | Exception | KeyboardInterrupt | CancelledError => Some BaseException
  | ValueError | TypeError | AttributeError | LookupError
  | HTTPException_class => Some Exception
  | IndexError | KeyError => Some LookupError
  | UnicodeDecodeError | EmptyDataError | ParserError => Some ValueError
  end.

Fixpoint subclass_upto (fuel : nat) (c d : exc_class) : bool :=
  exc_class_eqb c d ||
  match fuel, base c with
  | S n, Some b => subclass_upto n b d
  | _, _ => false
  end.

(** [issubclass(c, d)]; no chain of bases is longer than four. *)
Definition issubclass (c d : exc_class) : bool := subclass_upto 4 c d.

(** A raised exception.  The detail of an [HTTPException] is either the
    literal of the source or the f-string [f"{prefix}{str(e)}"], kept
    symbolic. *)
Inductive exc :=
| PyExc (c : exc_class)
| HTTPException (status_code : Z) (detail : message)
with message :=
| Msg (s : pystr)
| MsgOf (prefix : pystr) (e : exc).

Definition class_of (e : exc) : exc_class :=
  match e with
  | PyExc c => c
  | HTTPException _ _ => HTTPException_class
  end.

Definition isinstance (e : exc) (c : exc_class) : bool :=
  issubclass (class_of e) c.

Inductive res (A : Type) :=
| Ret (a : A)
| Raise (e : exc).

Arguments Ret {A} a.
Arguments Raise {A} e.

Definition bind {A B} (c : res A) (k : A -> res B) : res B :=
  match c with
  | Ret a => k a
  | Raise e => Raise e
  end.

Declare Scope py_scope.
Delimit Scope py_scope with py.
Notation "x <- c ;; k" := (bind c (fun x => k))
  (at level 61, c at next level, right associativity) : py_scope.
Open Scope py_scope.

(** [try: body except <catches>: handler] *)
Definition try_except {A} (body : res A) (catches : exc -> bool)
    (handler : exc -> res A) : res A :=
  match body with
  | Ret a => Ret a
  | Raise e => if catches e then handler e else Raise e
  end.

(** [l[i]] on a list or an [Index]. *)
Definition py_index {A} (l : list A) (i : nat) : res A :=
  match nth_error l i with
  | Some x => Ret x
  | None => Raise (PyExc IndexError)
  end.

(** [f] applied to every element in order, stopping at the first raise. *)
Fixpoint map_res {A B} (f : A -> res B) (l : list A) : res (list B) :=
  match l with
  | [] => Ret []
  | x :: t => y <- f x ;; ys <- map_res f t ;; Ret (y :: ys)
  end.

(** ** What the interpreter supplies *)

Class Interp := {
  (** binary64 values, [float] and [numpy.float64] *)
  float : Type;
  float_zero : float;                       (* [0.0] *)
  float_isnan : float -> bool;
  float_of_str : pystr -> option float;     (* [float(s)]; [None] is [ValueError] *)
  str_of_float : float -> pystr;            (* [str(x)] *)
  (** [pandas.Timestamp], [NaT] included *)
  datetime : Type;
  datetime_isnat : datetime -> bool;
  str_of_datetime : datetime -> pystr;
  (** [pd.to_datetime(s, format=fmt)] *)
  to_datetime_format : pystr -> pystr -> res datetime;
  (** [pd.to_datetime(s, infer_datetime_format=True)] *)
  to_datetime_infer : pystr -> res datetime;
  (** [s.lower()] *)
  lower : pystr -> pystr
}.

(** ** Cells and the three cleaners *)

Section Cleaners.

Context {I : Interp}.

(** What a cell of a frame can hold: text, the numbers and booleans that
    [read_csv] infers (a missing cell is the float NaN), and what the
    cleaners produce. *)
Inductive value :=
| VNone
| VStr (s : pystr)
| VInt (z : Z)
| VBool (b : bool)
| VFloat (f : float)
| VTime (t : datetime).

(** [pd.isna(v)] on a scalar *)
Definition pd_isna (v : value) : bool :=
  match v with
  | VNone => true
  | VFloat f => float_isnan f
  | VTime t => datetime_isnat t
  | VStr _ | VInt _ | VBool _ => false
  end.

(** [v == ''] *)
Definition is_empty_text (v : value) : bool :=
  match v with
  | VStr [] => true
  | _ => false
  end.

(** [str(v)] *)
Definition py_str (v : value) : pystr :=
  match v with
  | VNone => lit "None"
  | VStr s => s
  | VInt z => Text.of_Z z
  | VBool true => lit "True"
  | VBool false => lit "False"
  | VFloat f => str_of_float f
  | VTime t => str_of_datetime t
  end.

(** [float(s)] on text *)
Definition py_float (s : pystr) : res float :=
  match float_of_str s with
  | Some f => Ret f
  | None => Raise (PyExc ValueError)
  end.

(** The class [[$€£¥₹,\s]]. *)
Definition amount_noise : list Re.item :=
  [Re.Chr 36; Re.Chr 8364; Re.Chr 163; Re.Chr 165; Re.Chr 8377;
   Re.Chr 44; Re.Space]%N.

(** The text [clean_amount] hands to [float]. *)
Definition amount_text (amount_str : value) : pystr :=
  let amount_str := Text.strip (py_str amount_str) in
  let amount_str := Re.sub_class amount_noise [] amount_str in
  if Text.startswith (lit "(") amount_str
     && Text.endswith (lit ")") amount_str
  then lit "-" ++ Text.slice 1 (-1) amount_str
  else amount_str.

Definition clean_amount (amount_str : value) : res float :=
  if pd_isna amount_str || is_empty_text amount_str then Ret float_zero
  else
    try_except (py_float (amount_text amount_str))
      (fun e => isinstance e ValueError || isinstance e TypeError)
      (fun _ => Ret float_zero).

Definition clean_category (category_str : value) : res pystr :=
  if pd_isna category_str then Ret []
  else Ret (lower (Text.strip (py_str category_str))).

Definition date_formats : list pystr :=
  map lit
    ["%Y-%m-%d"; "%m/%d/%Y"; "%d/%m/%Y"; "%m-%d-%Y"; "%d-%m-%Y";
     "%Y/%m/%d"; "%d.%m.%Y"; "%m.%d.%Y"; "%Y.%m.%d";
     "%B %d, %Y"; "%b %d, %Y"; "%d %B %Y"; "%d %b %Y"]%string.

(** The [for fmt in date_formats] loop: [Some t] when an iteration
    returns [t], [None] when the loop runs to its end. *)
Fixpoint try_date_formats (fmts : list pystr) (date_str : pystr)
    : option datetime :=
  match fmts with
  | [] => None
  | fmt :: rest =>
      match to_datetime_format date_str fmt with
      | Ret t => Some t                                (* [return] *)
      | Raise _ => try_date_formats rest date_str      (* [except: continue] *)
      end
  end.

(** The result is a timestamp or [None]. *)
Definition clean_date (date_str : value) : res (option datetime) :=
  if pd_isna date_str || is_empty_text date_str then Ret None
  else
    let date_str := Text.strip (py_str date_str) in
    match try_date_formats date_formats date_str with
    | Some t => Ret (Some t)
    | None =>
        try_except (t <- to_datetime_infer date_str ;; Ret (Some t))
          (fun _ => true) (fun _ => Ret None)
    end.

End Cleaners.

(** ** Frames *)

Section Frames.

Context {I : Interp}.

Definition Series := list value.

(** A frame: its columns in order, each under its label.  Labels may
    repeat. *)
Definition DataFrame := list (pystr * Series).

(** [df.columns] *)
Definition columns (df : DataFrame) : list pystr := map fst df.

(** All columns have [n] rows. *)
Definition well_formed (n : nat) (df : DataFrame) : Prop :=
  Forall (fun col => length (snd col) = n) df.

(** The columns under the label [key], in frame order. *)
Definition columns_named (key : pystr) (df : DataFrame) : list Series :=
  map snd (filter (fun col => Text.eqb (fst col) key) df).

(** [df[key]] where the program goes on with one column: an unknown label
    is a [KeyError]; a repeated label selects a frame, on which the cell
    functions of lines 101, 102 and 107 raise [ValueError].  At line 114
    a frame is summed column by column and the handler returns a record
    whose [answer] is no number: the responses of this model are
    records with a scalar [answer], and it raises there as well, so
    that a run that is successful here has one [clean_amount] column. *)
Definition one_column (cols : list Series) : res Series :=
  match cols with
  | [] => Raise (PyExc KeyError)
  | [s] => Ret s
  | _ :: _ :: _ => Raise (PyExc ValueError)
  end.

Definition getitem (df : DataFrame) (key : pystr) : res Series :=
  one_column (columns_named key df).

(** [df[key].str] at line 111: the frame a repeated label selects has no
    [str] accessor. *)
Definition str_accessor (df : DataFrame) (key : pystr) : res Series :=
  match columns_named key df with
  | [] => Raise (PyExc KeyError)
  | [s] => Ret s
  | _ :: _ :: _ => Raise (PyExc AttributeError)
  end.

Definition has_label (key : pystr) (df : DataFrame) : bool :=
  existsb (fun col => Text.eqb (fst col) key) df.

(** [df[key] = s]: every column under an existing label is overwritten, a
    new label is appended. *)
Definition setitem (df : DataFrame) (key : pystr) (s : Series) : DataFrame :=
  if has_label key df
  then map (fun col => if Text.eqb (fst col) key then (fst col, s) else col) df
  else df ++ [(key, s)].

(** [s[mask]] *)
Fixpoint select_rows {A} (mask : list bool) (s : list A) : list A :=
  match mask, s with
  | b :: mask', x :: s' =>
      if b then x :: select_rows mask' s' else select_rows mask' s'
  | _, _ => []
  end.

(** [df[mask]] *)
Definition boolean_index (df : DataFrame) (mask : list bool) : DataFrame :=
  map (fun col => (fst col, select_rows mask (snd col))) df.

(** [s.str.contains(pat, na=False)]: a cell that is not text gives the
    [na] value. *)
Definition str_contains (s : Series) (pat : pystr) : list bool :=
  map (fun v => match v with
                | VStr t => Re.search pat t
                | _ => false
                end) s.

End Frames.

(** ** What pandas and the codec supply *)

Class Library {I : Interp} := {
  (** [contents.decode('utf-8')] *)
  utf8_decode : list N -> res pystr;
  (** [pd.read_csv(io.StringIO(text))] *)
  read_csv : pystr -> res DataFrame;
  (** [s.sum()] *)
  series_sum : Series -> value;
  (** [round(x, ndigits)] *)
  py_round : value -> Z -> value
}.

(** ** The endpoint *)

(** What the handler does to the upload, in order. *)
Inductive event := FileRead | Utf8Decode | ReadCsv.

(** A step of the handler: the events it performed and its outcome. *)
Definition io (A : Type) : Type := (list event * res A)%type.

Definition pure {A} (r : res A) : io A := ([], r).

Definition perform {A} (ev : event) (r : res A) : io A := ([ev], r).

Definition io_bind {A B} (c : io A) (k : A -> io B) : io B :=
  match c with
  | (l, Ret a) => let (l', r) := k a in (l ++ l', r)
  | (l, Raise e) => (l, Raise e)
  end.

Notation "x <~ c ;; k" := (io_bind c (fun x => k))
  (at level 61, c at next level, right associativity) : py_scope.

Definition io_try {A} (body : io A) (catches : exc -> bool)
    (handler : exc -> io A) : io A :=
  match body with
  | (l, Ret a) => (l, Ret a)
  | (l, Raise e) =>
      if catches e then let (l', r) := handler e in (l ++ l', r)
      else (l, Raise e)
  end.

Record UploadFile := {
  filename : pystr;
  body : list N          (* the bytes [file.read()] returns *)
}.

Section Endpoint.

Context {I : Interp} {L : Library}.

(** [any(word in col for word in words)] *)
Definition has_any (words : list pystr) (col : pystr) : bool :=
  existsb (fun word => Text.contains word col) words.

Definition amount_words : list pystr :=
  map lit ["amount"; "cost"; "price"; "total"; "spend"; "expense"]%string.

Definition category_words : list pystr :=
  map lit ["category"; "type"; "class"; "group"]%string.

Definition date_words : list pystr :=
  map lit ["date"; "time"; "day"]%string.

Definition food_keywords : list pystr :=
  map lit ["food"; "restaurant"; "grocery"; "dining"; "meal"; "lunch";
           "dinner"; "breakfast"; "cafe"; "fast food"; "takeout"]%string.

Definition is_nonempty {A} (l : list A) : bool :=
  match l with [] => false | _ :: _ => true end.

(** Line 86: the labels are trimmed and lower-cased, position by
    position. *)
Definition canonicalize (df : DataFrame) : DataFrame :=
  map (fun col => (lower (Text.strip (fst col)), snd col)) df.

(** Line 94: the amount column. *)
Definition choose_amount_col (cols : list pystr) : res pystr :=
  let amount_cols := filter (has_any amount_words) cols in
  if is_nonempty amount_cols then py_index amount_cols 0
  else if (1 <? length cols)%nat then py_index cols 1
  else py_index cols 0.

(** Line 95: the category column, or [None]. *)
Definition choose_category_col (cols : list pystr) : res (option pystr) :=
  let category_cols := filter (has_any category_words) cols in
  if is_nonempty category_cols
  then c <- py_index category_cols 0 ;; Ret (Some c)
  else if (0 <? length cols)%nat
       then c <- py_index cols 0 ;; Ret (Some c)
       else Ret None.

(** What [clean_date] returned, as a cell. *)
Definition date_cell (d : option datetime) : value :=
  match d with
  | Some t => VTime t
  | None => VNone
  end.

(** Lines 104-107: the date column, when there is one. *)
Definition clean_date_col (date_cols : list pystr) (df : DataFrame)
    : res DataFrame :=
  if is_nonempty date_cols then
    date_col <- py_index date_cols 0 ;;
    s <- getitem df date_col ;;
    cleaned <- map_res clean_date s ;;
    Ret (setitem df (lit "clean_date") (map date_cell cleaned))
  else Ret df.

(** The response of a successful request. *)
Definition response (food_spending : value) : list (pystr * value) :=
  [(lit "answer", py_round food_spending 2);
   (lit "email", VStr (lit "analyst@example.com"));
   (lit "exam", VStr (lit "tds-2025-05-roe"))].

(** Lines 85-120: from the parsed frame to the response. *)
Definition analyze_frame (df : DataFrame) : res (list (pystr * value)) :=
  let df := canonicalize df in
  let date_cols := filter (has_any date_words) (columns df) in
  amount_col <- choose_amount_col (columns df) ;;
  category_col <- choose_category_col (columns df) ;;
  match category_col with
  | None =>
      Raise (HTTPException 400
               (Msg (lit "Could not identify category column")))
  | Some category_col =>
      s <- getitem df amount_col ;;
      amounts <- map_res clean_amount s ;;
      let df := setitem df (lit "clean_amount") (map VFloat amounts) in
      s <- getitem df category_col ;;
      categories <- map_res clean_category s ;;
      let df := setitem df (lit "clean_category") (map VStr categories) in
      df <- clean_date_col date_cols df ;;
      s <- str_accessor df (lit "clean_category") ;;
      let food_mask := str_contains s (Text.join (lit "|") food_keywords) in
      s <- getitem (boolean_index df food_mask) (lit "clean_amount") ;;
      let food_spending := series_sum s in
      Ret (response food_spending)
  end.

Definition analyze_csv (file : UploadFile) : io (list (pystr * value)) :=
  if negb (Text.endswith (lit ".csv") (filename file))
  then pure (Raise (HTTPException 400 (Msg (lit "File must be a CSV"))))
  else
    io_try
      (contents <~ perform FileRead (Ret (body file)) ;;
       text <~ perform Utf8Decode (utf8_decode contents) ;;
       df <~ perform ReadCsv (read_csv text) ;;
       pure (analyze_frame df))
      (fun e => isinstance e Exception)
      (fun e => pure (Raise (HTTPException 500
                               (MsgOf (lit "Error processing CSV: ") e)))).

End Endpoint.

(** * A reference runtime

    One instance of the two interfaces, on which the model runs: ASCII
    lower-casing, binary64 values read from and printed as decimal
    literals the way CPython does, [strptime] for the directives the
    program uses, and a reader of comma-separated text that keeps cells
    as text, integers or floats.  The properties below hold for every
    instance; this one evaluates them on concrete uploads. *)

Module Reference.

(** *** Lower-casing of the ASCII letters *)

Definition lower_char (c : codepoint) : codepoint :=
  if ((65 <=? c) && (c <=? 90))%N then (c + 32)%N else c.

Definition ascii_lower (s : pystr) : pystr := map lower_char s.

(** *** binary64 from decimal text *)

Definition digit (c : codepoint) : option Z :=
  if ((48 <=? c) && (c <=? 57))%N then Some (Z.of_N c - 48)%Z else None.

(** [(["_"] digit)*]: the number read so far, how many digits were read,
    and the rest of the text. *)
Fixpoint digits_tail (acc n : Z) (s : pystr) : Z * Z * pystr :=
  match s with
  | c :: t =>
      match digit c with
      | Some d => digits_tail (10 * acc + d) (n + 1) t
      | None =>
          if (c =? 95)%N then
            match t with
            | c' :: t' =>
                match digit c' with
                | Some d => digits_tail (10 * acc + d) (n + 1) t'
                | None => (acc, n, s)
                end
            | [] => (acc, n, s)
            end
          else (acc, n, s)
      end
  | [] => (acc, n, s)
  end.

(** [digit (["_"] digit)*], continuing the number [acc]. *)
Definition digitpart (acc : Z) (s : pystr) : option (Z * Z * pystr) :=
  match s with
  | c :: t =>
      match digit c with
      | Some d => Some (digits_tail (10 * acc + d) 1 t)
      | None => None
      end
  | [] => None
  end.

Definition sign (s : pystr) : bool * pystr :=
  match s with
  | 45 :: t => (true, t)
  | 43 :: t => (false, t)
  | _ => (false, s)
  end%N.

(** [[digitpart] "." digitpart | digitpart ["."]]: all digits as one
    integer, and how many of them follow the point. *)
Definition number (s : pystr) : option (Z * Z * pystr) :=
  match digitpart 0 s with
  | Some (m, _, 46%N :: t) =>
      match digitpart m t with
      | Some (m', nf, rest) => Some (m', nf, rest)
      | None => Some (m, 0%Z, t)
      end
  | Some (m, _, rest) => Some (m, 0%Z, rest)
  | None =>
      match s with
      | 46%N :: t => digitpart 0 t
      | _ => None
      end
  end.

(** [("e" | "E") [sign] digitpart], or nothing, up to the end of the text. *)
Definition exponent (s : pystr) : option Z :=
  match s with
  | [] => Some 0%Z
  | c :: t =>
      if ((c =? 101) || (c =? 69))%N then
        let (neg, t') := sign t in
        match digitpart 0 t' with
        | Some (e, _, []) => Some (if neg then (- e)%Z else e)
        | _ => None
        end
      else None
  end.

(** The binary64 nearest to [m * 10 ^ e10], ties to even. *)
Definition binary64 (neg : bool) (m e10 : Z) : spec_float :=
  if (m =? 0)%Z then S754_zero neg
  else if (0 <=? e10)%Z then
    binary_normalize 53 1024 ((if neg then - m else m) * 10 ^ e10)%Z 0 false
  else
    let d := (10 ^ (- e10))%Z in
    let s := (Z.log2 d + 64)%Z in
    let n := (m * 2 ^ s)%Z in
    let r := (n mod d)%Z in
    let loc :=
      if (r =? 0)%Z then loc_Exact else loc_Inexact (2 * r ?= d)%Z in
    binary_round_aux 53 1024 neg (n / d)%Z (- s)%Z loc.

(** [float(s)] for ASCII text. *)
Definition float_of_text (s : pystr) : option spec_float :=
  let (neg, t) := sign (Text.strip s) in
  let w := ascii_lower t in
  if Text.eqb w (lit "inf") || Text.eqb w (lit "infinity")
  then Some (S754_infinity neg)
  else if Text.eqb w (lit "nan") then Some S754_nan
  else
    match number t with
    | Some (m, nf, rest) =>
        match exponent rest with
        | Some e =>
            let e10 := (e - nf)%Z in
            Some (if (m =? 0)%Z then S754_zero neg
                  else if (400 <? e10)%Z then S754_infinity neg
                  else if (e10 + Z.log2 (m + 1) <? -400)%Z then S754_zero neg
                  else binary64 neg m e10)
        | None => None
        end
    | None => None
    end.

(** *** binary64 as decimal text *)

(** [num / den >= 10 ^ k], for positive [num] and [den]. *)
Definition ge_pow10 (num den k : Z) : bool :=
  if (0 <=? k)%Z then (den * 10 ^ k <=? num)%Z
  else (den <=? num * 10 ^ (- k))%Z.

(** The integer nearest to [num / den / 10 ^ k], ties to even. *)
Definition round_div_pow10 (num den k : Z) : Z :=
  let n := if (0 <=? k)%Z then num else (num * 10 ^ (- k))%Z in
  let d := if (0 <=? k)%Z then (den * 10 ^ k)%Z else den in
  let q := (n / d)%Z in
  match (2 * (n mod d) ?= d)%Z with
  | Lt => q
  | Gt => (q + 1)%Z
  | Eq => if Z.even q then q else (q + 1)%Z
  end.

(** The integer part of the decimal logarithm of [num / den]. *)
Definition log10_floor (num den : Z) : Z :=
  let est := ((Z.log2 num - Z.log2 den) * 30103 / 100000)%Z in
  let est := if ge_pow10 num den est then est else (est - 1)%Z in
  let est := if ge_pow10 num den est then est else (est - 1)%Z in
  let est := if ge_pow10 num den (est + 1) then (est + 1)%Z else est in
  if ge_pow10 num den (est + 1) then (est + 1)%Z else est.

(** The fewest digits, from [n] on, that read back as [m * 2 ^ e], with the
    power of ten of the last digit. *)
Fixpoint shortest (fuel : nat) (n : Z) (m : positive) (e num den p10 : Z)
    : Z * Z :=
  let k := (p10 - (n - 1))%Z in
  let d := round_div_pow10 num den k in
  match fuel with
  | O => (d, k)
  | S fuel' =>
      match binary64 false d k with
      | S754_finite _ m' e' =>
          if Pos.eqb m m' && Z.eqb e e' then (d, k)
          else shortest fuel' (n + 1)%Z m e num den p10
      | _ => shortest fuel' (n + 1)%Z m e num den p10
      end
  end.

Fixpoint drop_zeros (fuel : nat) (d k : Z) : Z * Z :=
  match fuel with
  | O => (d, k)
  | S fuel' =>
      if ((d mod 10 =? 0) && negb (d =? 0))%Z
      then drop_zeros fuel' (d / 10)%Z (k + 1)%Z
      else (d, k)
  end.

Definition zeros (n : Z) : pystr := repeat 48%N (Z.to_nat n).

(** [repr] of the digits with the point before digit [decpt]. *)
Definition format_digits (digits : pystr) (decpt : Z) : pystr :=
  let len := Z.of_nat (length digits) in
  if ((-3 <=? decpt) && (decpt <=? 16))%Z then
    if (decpt <=? 0)%Z then lit "0." ++ zeros (- decpt) ++ digits
    else if (len <=? decpt)%Z then digits ++ zeros (decpt - len) ++ lit ".0"
    else firstn (Z.to_nat decpt) digits ++ lit "."
         ++ skipn (Z.to_nat decpt) digits
  else
    let x := (decpt - 1)%Z in
    firstn 1 digits
    ++ (if (1 <? len)%Z then lit "." ++ skipn 1 digits else [])
    ++ lit "e" ++ (if (x <? 0)%Z then lit "-" else lit "+")
    ++ (if (Z.abs x <? 10)%Z then lit "0" else []) ++ Text.of_Z (Z.abs x).

(** [str(x)] for a float. *)
Definition text_of_float (f : spec_float) : pystr :=
  match f with
  | S754_nan => lit "nan"
  | S754_infinity s => if s then lit "-inf" else lit "inf"
  | S754_zero s => if s then lit "-0.0" else lit "0.0"
  | S754_finite s m e =>
      let num := if (0 <=? e)%Z then (Zpos m * 2 ^ e)%Z else Zpos m in
      let den := if (0 <=? e)%Z then 1%Z else (2 ^ (- e))%Z in
      let (d, k) := shortest 17 1 m e num den (log10_floor num den) in
      let (d, k) := drop_zeros 20 d k in
      let digits := Text.of_Z d in
      (if s then lit "-" else [])
      ++ format_digits digits (k + Z.of_nat (length digits))
  end.

Definition is_nan (f : spec_float) : bool :=
  match f with S754_nan => true | _ => false end.

(** *** Timestamps and [strptime] *)

Record stamp := {
  year : Z; month : Z; day : Z;
  hour : Z; minute : Z; second : Z
}.

(** A timestamp; [None] is [NaT]. *)
Definition timestamp := option stamp.

Definition epoch : stamp :=
  {| year := 1900; month := 1; day := 1; hour := 0; minute := 0; second := 0 |}.

Definition month_names : list string :=
  ["january"; "february"; "march"; "april"; "may"; "june"; "july";
   "august"; "september"; "october"; "november"; "december"]%string.

Definition month_abbrs : list string :=
  ["jan"; "feb"; "mar"; "apr"; "may"; "jun"; "jul"; "aug"; "sep"; "oct";
   "nov"; "dec"]%string.

(** A number of one or two digits between [lo] and [hi]; the two-digit
    reading comes first, as in the pattern [strptime] compiles. *)
Definition number2 (lo hi : Z) (s : pystr) : list (Z * pystr) :=
  (match s with
   | a :: b :: t =>
       match digit a, digit b with
       | Some x, Some y =>
           let v := (10 * x + y)%Z in
           if ((lo <=? v) && (v <=? hi))%Z then [(v, t)] else []
       | _, _ => []
       end
   | _ => []
   end)
  ++
  (match s with
   | a :: t =>
       match digit a with
       | Some x => if ((lo <=? x) && (x <=? hi))%Z then [(x, t)] else []
       | None => []
       end
   | [] => []
   end).

Definition number4 (s : pystr) : list (Z * pystr) :=
  match s with
  | a :: b :: c :: d :: t =>
      match digit a, digit b, digit c, digit d with
      | Some w, Some x, Some y, Some z =>
          [((1000 * w + 100 * x + 10 * y + z)%Z, t)]
      | _, _, _, _ => []
      end
  | _ => []
  end.

(** The month whose name, in any case, starts the text. *)
Fixpoint named_month (names : list string) (k : Z) (s : pystr)
    : list (Z * pystr) :=
  match names with
  | [] => []
  | name :: rest =>
      let n := length (lit name) in
      (if Text.eqb (ascii_lower (firstn n s)) (lit name)
       then [(k, skipn n s)] else [])
      ++ named_month rest (k + 1)%Z s
  end.

(** One or more white-space characters, the longest run first. *)
Fixpoint spaces (s : pystr) : list pystr :=
  match s with
  | c :: t => if Text.isspace c then spaces t ++ [t] else []
  | [] => []
  end.

Definition directive (d : codepoint) (st : stamp * pystr)
    : list (stamp * pystr) :=
  let (p, s) := st in
  let put (f : Z -> stamp) (l : list (Z * pystr)) :=
    map (fun vr => (f (fst vr), snd vr)) l in
  if (d =? 89)%N then        (* %Y *)
    put (fun v => {| year := v; month := month p; day := day p;
                     hour := hour p; minute := minute p;
                     second := second p |}) (number4 s)
  else if (d =? 109)%N then  (* %m *)
    put (fun v => {| year := year p; month := v; day := day p;
                     hour := hour p; minute := minute p;
                     second := second p |}) (number2 1 12 s)
  else if (d =? 66)%N then   (* %B *)
    put (fun v => {| year := year p; month := v; day := day p;
                     hour := hour p; minute := minute p;
                     second := second p |}) (named_month month_names 1 s)
  else if (d =? 98)%N then   (* %b *)
    put (fun v => {| year := year p; month := v; day := day p;
                     hour := hour p; minute := minute p;
                     second := second p |}) (named_month month_abbrs 1 s)
  else if (d =? 100)%N then  (* %d *)
    put (fun v => {| year := year p; month := month p; day := v;
                     hour := hour p; minute := minute p;
                     second := second p |})
        (number2 1 31 s
         ++ match s with
            | 32%N :: a :: t =>
                match digit a with
                | Some x => if (1 <=? x)%Z then [(x, t)] else []
                | None => []
                end
            | _ => []
            end)
  else if (d =? 72)%N then   (* %H *)
    put (fun v => {| year := year p; month := month p; day := day p;
                     hour := v; minute := minute p;
                     second := second p |}) (number2 0 23 s)
  else if (d =? 77)%N then   (* %M *)
    put (fun v => {| year := year p; month := month p; day := day p;
                     hour := hour p; minute := v;
                     second := second p |}) (number2 0 59 s)
  else if (d =? 83)%N then   (* %S *)
    put (fun v => {| year := year p; month := month p; day := day p;
                     hour := hour p; minute := minute p;
                     second := v |}) (number2 0 61 s)
  else [].

(** Every way to read the text along the format, in the order in which
    the compiled pattern tries them. *)
Fixpoint readings (fmt : pystr) (sts : list (stamp * pystr))
    : list (stamp * pystr) :=
  match fmt with
  | [] => sts
  | c :: fmt' =>
      if (c =? 37)%N then
        match fmt' with
        | d :: fmt'' => readings fmt'' (flat_map (directive d) sts)
        | [] => []
        end
      else if Text.isspace c then
        readings fmt'
          (flat_map (fun st => map (pair (fst st)) (spaces (snd st))) sts)
      else
        readings fmt'
          (flat_map (fun st => match snd st with
                               | c' :: t =>
                                   if (c' =? c)%N then [(fst st, t)] else []
                               | [] => []
                               end) sts)
  end.

Definition leap (y : Z) : bool :=
  ((y mod 4 =? 0) && (negb (y mod 100 =? 0) || (y mod 400 =? 0)))%Z.

Definition days_in_month (y m : Z) : Z :=
  if (m =? 2)%Z then (if leap y then 29 else 28)%Z
  else if ((m =? 4) || (m =? 6) || (m =? 9) || (m =? 11))%Z then 30%Z
  else 31%Z.

Definition nat_texts : list string :=
  ["NaT"; "nat"; "NAT"; "nan"; "NaN"; "NAN"]%string.

(** [pd.to_datetime(s, format=fmt)] *)
Definition strptime (s fmt : pystr) : res timestamp :=
  if existsb (fun n => Text.eqb s (lit n)) nat_texts then Ret None
  else
    match filter (fun st => match snd st with [] => true | _ => false end)
            (readings fmt [(epoch, s)]) with
    | (p, _) :: _ =>
        if (day p <=? days_in_month (year p) (month p))%Z && (second p <? 60)%Z
        then Ret (Some p)
        else Raise (PyExc ValueError)
    | [] => Raise (PyExc ValueError)
    end.

(** The layouts the generic inference of this runtime knows. *)
Definition inferred_formats : list string :=
  ["%Y-%m-%d %H:%M:%S"; "%Y-%m-%dT%H:%M:%S"; "%Y-%m-%d %H:%M";
   "%Y%m%d"]%string.

Definition infer_datetime (s : pystr) : res timestamp :=
  match flat_map (fun fmt => match strptime s (lit fmt) with
                             | Ret t => [t]
                             | Raise _ => []
                             end) inferred_formats with
  | t :: _ => Ret t
  | [] => Raise (PyExc ValueError)
  end.

Definition text_of_timestamp (t : timestamp) : pystr :=
  let two (z : Z) := (if (z <? 10)%Z then lit "0" else []) ++ Text.of_Z z in
  match t with
  | None => lit "NaT"
  | Some p =>
      Text.of_Z (year p) ++ lit "-" ++ two (month p) ++ lit "-" ++ two (day p)
      ++ lit " " ++ two (hour p) ++ lit ":" ++ two (minute p) ++ lit ":"
      ++ two (second p)
  end.

#[export] Instance interp : Interp := {|
  float := spec_float;
  float_zero := S754_zero false;
  float_isnan := is_nan;
  float_of_str := float_of_text;
  str_of_float := text_of_float;
  datetime := timestamp;
  datetime_isnat := fun t => match t with None => true | Some _ => false end;
  str_of_datetime := text_of_timestamp;
  to_datetime_format := strptime;
  to_datetime_infer := infer_datetime;
  lower := ascii_lower
|}.

(** *** UTF-8 *)

Definition continuation (b : N) : bool := ((128 <=? b) && (b <=? 191))%N.

(** [bytes.decode('utf-8')]: the shortest encoding of each code point, no
    surrogates, nothing above U+10FFFF. *)
Fixpoint decode_utf8 (bs : list N) : res pystr :=
  match bs with
  | [] => Ret []
  | b0 :: t =>
      if (b0 <? 128)%N then
        (rest <- decode_utf8 t ;; Ret (b0 :: rest))
      else if ((194 <=? b0) && (b0 <=? 223))%N then
        match t with
        | b1 :: t1 =>
            if continuation b1 then
              (rest <- decode_utf8 t1 ;;
               Ret (((b0 - 192) * 64 + (b1 - 128))%N :: rest))
            else Raise (PyExc UnicodeDecodeError)
        | _ => Raise (PyExc UnicodeDecodeError)
        end
      else if ((224 <=? b0) && (b0 <=? 239))%N then
        match t with
        | b1 :: b2 :: t2 =>
            let c := ((b0 - 224) * 4096 + (b1 - 128) * 64 + (b2 - 128))%N in
            if continuation b1 && continuation b2 && (2048 <=? c)%N
               && negb ((55296 <=? c) && (c <=? 57343))%N
            then (rest <- decode_utf8 t2 ;; Ret (c :: rest))
            else Raise (PyExc UnicodeDecodeError)
        | _ => Raise (PyExc UnicodeDecodeError)
        end
      else if ((240 <=? b0) && (b0 <=? 244))%N then
        match t with
        | b1 :: b2 :: b3 :: t3 =>
            let c := ((b0 - 240) * 262144 + (b1 - 128) * 4096
                      + (b2 - 128) * 64 + (b3 - 128))%N in
            if continuation b1 && continuation b2 && continuation b3
               && (65536 <=? c)%N && (c <=? 1114111)%N
            then (rest <- decode_utf8 t3 ;; Ret (c :: rest))
            else Raise (PyExc UnicodeDecodeError)
        | _ => Raise (PyExc UnicodeDecodeError)
        end
      else Raise (PyExc UnicodeDecodeError)
  end.

(** The UTF-8 bytes of an ASCII literal. *)
Definition bytes (s : string) : list N := lit s.

(** *** Comma-separated text *)

(** The lines of a text, without their line ends. *)
Fixpoint lines_of (cur : pystr) (s : pystr) : list pystr :=
  match s with
  | [] => [rev cur]
  | c :: t =>
      if (c =? 10)%N then
        rev (match cur with 13%N :: cur' => cur' | _ => cur end)
        :: lines_of [] t
      else lines_of (c :: cur) t
  end.

(** The fields of a line; a field in double quotes may hold commas, and a
    doubled quote inside it is one quote. *)
Fixpoint fields_of (cur : pystr) (quoted : bool) (s : pystr) : list pystr :=
  match s with
  | [] => [rev cur]
  | c :: t =>
      if quoted then
        if (c =? 34)%N then
          match t with
          | 34%N :: t' => fields_of (34%N :: cur) true t'
          | _ => fields_of cur false t
          end
        else fields_of (c :: cur) true t
      else if (c =? 34)%N then fields_of cur true t
      else if (c =? 44)%N then rev cur :: fields_of [] false t
      else fields_of (c :: cur) false t
  end.

(** Labels as the reader names them: an empty one by its position, a
    repeated one with a counter. *)
Fixpoint name_columns (seen : list pystr) (pos : Z) (names : list pystr)
    : list pystr :=
  match names with
  | [] => []
  | n :: rest =>
      let n := match n with
               | [] => lit "Unnamed: " ++ Text.of_Z pos
               | _ => n
               end in
      let k := Z.of_nat (length (filter (Text.eqb n) seen)) in
      (if (k =? 0)%Z then n else n ++ lit "." ++ Text.of_Z k)
      :: name_columns (n :: seen) (pos + 1)%Z rest
  end.

Definition na_texts : list string :=
  [""; "#N/A"; "#N/A N/A"; "#NA"; "-1.#IND"; "-1.#QNAN"; "-NaN"; "-nan";
   "1.#IND"; "1.#QNAN"; "<NA>"; "N/A"; "NA"; "NULL"; "NaN"; "None"; "n/a";
   "nan"; "null"]%string.

Definition is_na_text (s : pystr) : bool :=
  existsb (fun n => Text.eqb s (lit n)) na_texts.

(** An integer literal: an optional sign and digits. *)
Definition int_of_text (s : pystr) : option Z :=
  let (neg, t) := sign s in
  if forallb (fun c => match digit c with Some _ => true | None => false end) t
  then match digitpart 0 t with
       | Some (v, _, []) => Some (if neg then (- v)%Z else v)
       | _ => None
       end
  else None.

Definition is_some {A} (o : option A) : bool :=
  match o with Some _ => true | None => false end.

(** The cells of one column: integers when every cell is one, floats when
    every cell that is there is a number, text otherwise; a missing cell is
    NaN. *)
Definition infer_column (cells : list pystr) : list (@value interp) :=
  let present := filter (fun c => negb (is_na_text c)) cells in
  if is_nonempty present && forallb (fun c => is_some (int_of_text c)) cells
  then map (fun c => match int_of_text c with
                     | Some z => VInt z
                     | None => VFloat S754_nan
                     end) cells
  else if forallb (fun c => is_some (float_of_text c)
                            && negb (existsb (N.eqb 95) c)) present
       && is_nonempty cells
  then map (fun c => if is_na_text c then VFloat S754_nan
                     else match float_of_text c with
                          | Some f => VFloat f
                          | None => VFloat S754_nan
                          end) cells
  else map (fun c => if is_na_text c then VFloat S754_nan else VStr c) cells.

(** [pd.read_csv] on text without line breaks inside quotes: the first
    line that is not blank is the header; a short row is padded with
    missing cells, a long one is an error. *)
Definition parse_csv (text : pystr) : res (@DataFrame interp) :=
  match filter is_nonempty (lines_of [] text) with
  | [] => Raise (PyExc EmptyDataError)
  | header :: rows =>
      let names := name_columns [] 0 (fields_of [] false header) in
      let rows := map (fields_of [] false) rows in
      if existsb (fun r => (length names <? length r)%nat) rows
      then Raise (PyExc ParserError)
      else
        Ret (map (fun jn =>
                    (snd jn,
                     infer_column (map (fun r => nth (fst jn) r []) rows)))
                 (combine (seq 0 (length names)) names))
  end.

(** *** Sums and rounding *)

(** [s.sum()] on floats: a NaN counts as [0.0], and the values are added
    from the first to the last. *)
Definition sum_floats (s : list (@value interp)) : @value interp :=
  VFloat (fold_left (fun acc v => match v with
                                  | VFloat f =>
                                      SFadd 53 1024 acc
                                        (if is_nan f then S754_zero false
                                         else f)
                                  | _ => acc
                                  end) s (S754_zero false)).

(** [round(x, ndigits)]: the float nearest to the decimal that is nearest
    to [x], ties to even. *)
Definition round_float (v : @value interp) (ndigits : Z) : @value interp :=
  match v with
  | VFloat (S754_finite s m e) =>
      let num := if (0 <=? e)%Z then (Zpos m * 2 ^ e)%Z else Zpos m in
      let den := if (0 <=? e)%Z then 1%Z else (2 ^ (- e))%Z in
      VFloat (binary64 s (round_div_pow10 num den (- ndigits)) (- ndigits))
  | _ => v
  end.

#[export] Instance library : @Library interp := {|
  utf8_decode := decode_utf8;
  read_csv := parse_csv;
  series_sum := sum_floats;
  py_round := round_float
|}.

(** An upload whose body is the given lines of ASCII text. *)
Definition upload (name : string) (lines : list string) : UploadFile :=
  {| filename := lit name;
     body := bytes (String.concat (String "010" EmptyString) lines) |}.

(** *** Sample uploads *)

(** A field in double quotes. *)
Definition quoted (s : string) : string :=
  (String (ascii_of_nat 34) s ++ String (ascii_of_nat 34) EmptyString)%string.

(** Three rows, two of them food; the dates are written three ways. *)
Definition expenses : UploadFile :=
  upload "expenses.csv"
    ["Date,Category,Amount";
     "2024-01-05,Grocery Store," ++ quoted "$1,234.50";
     "03/04/2024,Transport,20";
     "5 March 2024, Fast Food ,(42.00)"]%string.

(** The same table with other values in the date column. *)
Definition expenses_redated : UploadFile :=
  upload "expenses.csv"
    ["Date,Category,Amount";
     "not a date,Grocery Store," ++ quoted "$1,234.50";
     ",Transport,20";
     "1999-12-31, Fast Food ,(42.00)"]%string.

(** A name that is not a CSV name. *)
Definition report : UploadFile :=
  upload "report.txt" ["Date,Category,Amount"; "2024-01-05,food,1"]%string.

(** A CSV name and an empty body: a text in which the reader finds no
    column. *)
Definition empty_upload : UploadFile := upload "data.csv" [].

(** The text and the table of an upload, empty when it has none. *)
Definition text_of (file : UploadFile) : pystr :=
  match decode_utf8 (body file) with
  | Ret text => text
  | Raise _ => []
  end.

Definition table_of (file : UploadFile) : @DataFrame interp :=
  match parse_csv (text_of file) with
  | Ret df => df
  | Raise _ => []
  end.

(** The response with the given answer. *)
Definition answer (x : spec_float) : list (pystr * @value interp) :=
  [(lit "answer", VFloat x);
   (lit "email", VStr (lit "analyst@example.com"));
   (lit "exam", VStr (lit "tds-2025-05-roe"))].

(** No header names an amount or a category. *)
Definition ledger : @DataFrame interp :=
  [(lit " Item ", [VStr (lit "lunch"); VStr (lit "bus")]);
   (lit "VALUE", [VInt 12; VInt 3])].




(** No row is food. *)
Definition fares : @DataFrame interp :=
  [(lit "what", [VStr (lit "bus"); VStr (lit "rent")]);
   (lit "paid", [VInt 3; VInt 700])].


End Reference.

(** * The vocabulary of the specification *)

Section Vocabulary.

Context {I : Interp}.

(** The characters the Amount Normalizer strips: [$], [€], [£], [¥], [₹],
    the comma, and white space. *)
Definition stripped_from_amounts (c : codepoint) : bool :=
  existsb (N.eqb c) [36; 8364; 163; 165; 8377; 44]%N || Text.isspace c.

(** The float a text denotes, [0.0] when it denotes none. *)
Definition float_or_zero (s : pystr) : float :=
  match float_of_str s with
  | Some f => f
  | None => float_zero
  end.


(** What the Amount Normalizer makes of a cell. *)
Definition amount_of (v : value) : float :=
  if pd_isna v || is_empty_text v then float_zero
  else float_or_zero (amount_text v).

(** What the Category Normalizer makes of a cell. *)
Definition category_of (v : value) : pystr :=
  if pd_isna v then [] else lower (Text.strip (py_str v)).

(** A category is food when the pattern of the food keywords is found in
    it. *)
Definition is_food (category : pystr) : bool :=
  Re.search (Text.join (lit "|") food_keywords) category.

(** [w] occurs in [s]. *)
Definition occurs_in (w s : pystr) : Prop :=
  exists before after, s = before ++ w ++ after.

(** [s] contains one of the [words]. *)
Definition contains_one_of (words : list pystr) (s : pystr) : Prop :=
  exists w, In w words /\ occurs_in w s.

(** [c] is the first of [cols], at position [i], to satisfy [P]. *)
Definition first_with (P : pystr -> Prop) (cols : list pystr) (i : nat)
    (c : pystr) : Prop :=
  nth_error cols i = Some c /\ P c /\
  forall j c', (j < i)%nat -> nth_error cols j = Some c' -> ~ P c'.


End Vocabulary.

Section FrameVocabulary.

Context {I : Interp} {L : Library}.

(** [amounts] and [cats] are the [clean_amount] and [clean_category]
    columns the program computes for the frame: the cleaners applied to
    the amount column and, once [clean_amount] is assigned, to the
    category column. *)
Definition cleaned_columns (df : DataFrame) (amounts : list float)
    (cats : list pystr) : Prop :=
  let df0 := canonicalize df in
  exists amount_col category_col s_amount s_category,
    choose_amount_col (columns df0) = Ret amount_col /\
    choose_category_col (columns df0) = Ret (Some category_col) /\
    getitem df0 amount_col = Ret s_amount /\
    map_res clean_amount s_amount = Ret amounts /\
    getitem (setitem df0 (lit "clean_amount") (map VFloat amounts))
      category_col = Ret s_category /\
    map_res clean_category s_category = Ret cats.

(** Two frames with the same labels and the same [clean_amount] and
    [clean_category] columns. *)
Definition alike (df1 df2 : DataFrame) : Prop :=
  columns df1 = columns df2 /\
  columns_named (lit "clean_amount") df1
  = columns_named (lit "clean_amount") df2 /\
  columns_named (lit "clean_category") df1
  = columns_named (lit "clean_category") df2.

(** Two outcomes that are both returns or the same exception. *)
Definition same_outcome {A B} (r1 : res A) (r2 : res B) : Prop :=
  match r1, r2 with
  | Ret _, Ret _ => True
  | Raise e1, Raise e2 => e1 = e2
  | _, _ => False
  end.

(** The amounts of the rows whose category is food, in row order. *)
Definition food_amounts (cats : list pystr) (amounts : list float)
    : list float :=
  map snd (filter (fun row => is_food (fst row)) (combine cats amounts)).

End FrameVocabulary.

(** * Properties *)

(** ** Text *)

Module TextFacts.
Import Text.

Example strip_demo : Text.strip (lit "  a b ") = lit "a b".
Proof. reflexivity. Qed.

Example slice_demo : Text.slice 1 (-1) (lit "(42.00)") = lit "42.00".
Proof. reflexivity. Qed.

Example of_Z_demo : Text.of_Z (-50) = lit "-50" /\ Text.of_Z 0 = lit "0".
Proof. split; reflexivity. Qed.

Lemma startswith_spec (p s : pystr) :
  startswith p s = true <-> exists t, s = p ++ t.
Proof.
  revert s; induction p as [|a p IH]; intros s; simpl.
  - split; [intros _; now exists s | reflexivity].
  - destruct s as [|b s].
    + split; [discriminate | intros [t Ht]; discriminate].
    + rewrite andb_true_iff, N.eqb_eq, IH. split.
      * intros [-> [t ->]]. now exists t.
      * intros [t Ht]. injection Ht as -> ->. split; [reflexivity | now exists t].
Qed.

Lemma endswith_spec (p s : pystr) :
  endswith p s = true <-> exists t, s = t ++ p.
Proof.
  unfold endswith. rewrite startswith_spec. split.
  - intros [t Ht]. exists (rev t).
    rewrite <- (rev_involutive s), Ht, rev_app_distr, rev_involutive.
    reflexivity.
  - intros [t ->]. exists (rev t). apply rev_app_distr.
Qed.

Lemma contains_spec (p s : pystr) :
  contains p s = true <-> exists a b, s = a ++ p ++ b.
Proof.
  induction s as [|c s IH].
  - simpl. rewrite orb_false_r, startswith_spec. split.
    + intros [t Ht]. now exists [], t.
    + intros [a [b Hab]]. destruct a; [now exists b | discriminate].
  - cbn [contains]. rewrite orb_true_iff, startswith_spec, IH. split.
    + intros [[t Ht] | [a [b Hab]]].
      * now exists [], t.
      * exists (c :: a), b. now rewrite Hab.
    + intros [a [b Hab]]. destruct a as [|c' a].
      * left. now exists b.
      * right. injection Hab as _ ->. now exists a, b.
Qed.

Lemma eqb_eq (a b : pystr) : eqb a b = true <-> a = b.
Proof.
  unfold eqb. destruct (list_eq_dec N.eq_dec a b); split;
    congruence || discriminate.
Qed.

Lemma eqb_neq (a b : pystr) : eqb a b = false <-> a <> b.
Proof.
  unfold eqb. destruct (list_eq_dec N.eq_dec a b); split;
    congruence || discriminate.
Qed.

Lemma eqb_refl (a : pystr) : eqb a a = true.
Proof. now apply eqb_eq. Qed.

(** Trimming only removes white space, so a filter that drops white space
    does not see it. *)
Lemma filter_lstrip (keep : codepoint -> bool) (s : pystr) :
  (forall c, isspace c = true -> keep c = false) ->
  filter keep (lstrip s) = filter keep s.
Proof.
  intros H. induction s as [|c s IH]; [reflexivity|].
  simpl. destruct (isspace c) eqn:Hc.
  - now rewrite (H c Hc).
  - reflexivity.
Qed.

Lemma filter_rev_comm {A} (f : A -> bool) (l : list A) :
  filter f (rev l) = rev (filter f l).
Proof.
  induction l as [|x l IH]; [reflexivity|].
  simpl. rewrite filter_app, IH. simpl.
  destruct (f x); simpl; [reflexivity | now rewrite app_nil_r].
Qed.

Lemma filter_strip (keep : codepoint -> bool) (s : pystr) :
  (forall c, isspace c = true -> keep c = false) ->
  filter keep (strip s) = filter keep s.
Proof.
  intros H. unfold strip, rstrip.
  rewrite filter_rev_comm, (filter_lstrip _ _ H), filter_rev_comm.
  rewrite rev_involutive. now apply filter_lstrip.
Qed.

Lemma slice_inner (a b : codepoint) (m : pystr) :
  slice 1 (-1) (a :: m ++ [b]) = m.
Proof.
  unfold slice, clamp. cbn [List.length].
  rewrite length_app. cbn [List.length].
  replace (1 <? 0)%Z with false by reflexivity.
  replace (-1 <? 0)%Z with true by reflexivity.
  rewrite Z.min_l by lia. rewrite Z.max_r by lia.
  replace (Z.to_nat 1) with 1%nat by reflexivity.
  cbn [skipn].
  replace (Z.to_nat _) with (List.length m) by lia.
  now rewrite firstn_app, Nat.sub_diag, firstn_all, firstn_O, app_nil_r.
Qed.

Lemma lstrip_split (s : pystr) :
  exists sp, s = sp ++ lstrip s /\ forallb isspace sp = true.
Proof.
  induction s as [|c s [sp [Hs Hsp]]].
  - now exists [].
  - simpl. destruct (isspace c) eqn:Hc.
    + exists (c :: sp). simpl. rewrite Hc, Hsp. split; [now f_equal | easy].
    + now exists [].
Qed.

Lemma lstrip_starts_black (s : pystr) : starts_black (lstrip s).
Proof.
  induction s as [|c s IH]; simpl; [exact I|].
  destruct (isspace c) eqn:Hc; [exact IH | exact Hc].
Qed.

Lemma lstrip_fixed (s : pystr) : starts_black s -> lstrip s = s.
Proof. destruct s as [|c s]; simpl; [easy | now intros ->]. Qed.

Lemma lstrip_idempotent (s : pystr) : lstrip (lstrip s) = lstrip s.
Proof. apply lstrip_fixed, lstrip_starts_black. Qed.

Lemma rstrip_prefix (s : pystr) : exists sp, s = rstrip s ++ sp.
Proof.
  unfold rstrip. destruct (lstrip_split (rev s)) as [sp [Hs _]].
  exists (rev sp). rewrite <- rev_app_distr, <- Hs. now rewrite rev_involutive.
Qed.

Lemma rstrip_starts_black (s : pystr) :
  starts_black s -> starts_black (rstrip s).
Proof.
  intros H. destruct (rstrip_prefix s) as [sp Hs].
  destruct (rstrip s) as [|c r]; [exact I|].
  rewrite Hs in H. exact H.
Qed.

Lemma strip_idempotent (s : pystr) : strip (strip s) = strip s.
Proof.
  unfold strip.
  rewrite (lstrip_fixed (rstrip (lstrip s)))
    by apply rstrip_starts_black, lstrip_starts_black.
  unfold rstrip. now rewrite rev_involutive, lstrip_idempotent.
Qed.

End TextFacts.

(** ** The cleaners *)

Section CleanerFacts.

Context {I : Interp}.

Lemma sub_class_filter (cls : list Re.item) (s : pystr) :
  Re.sub_class cls [] s = filter (fun c => negb (Re.in_class cls c)) s.
Proof.
  induction s as [|c s IH]; [reflexivity|].
  simpl. destruct (Re.in_class cls c); simpl; now rewrite IH.
Qed.

Lemma amount_noise_stripped (c : codepoint) :
  Re.in_class amount_noise c = stripped_from_amounts c.
Proof.
  unfold Re.in_class, stripped_from_amounts, amount_noise. simpl.
  now rewrite !orb_false_r, <- !orb_assoc.
Qed.

(** The text that is left of a cell once the noise is removed. *)
Lemma amount_kept (v : value) :
  Re.sub_class amount_noise [] (Text.strip (py_str v))
  = filter (fun c => negb (stripped_from_amounts c)) (py_str v).
Proof.
  rewrite sub_class_filter.
  rewrite (filter_ext _ (fun c => negb (stripped_from_amounts c)))
    by (intros c; now rewrite amount_noise_stripped).
  apply TextFacts.filter_strip. intros c Hc.
  unfold stripped_from_amounts. now rewrite Hc, orb_true_r.
Qed.

Lemma wrapped_in_parentheses (k : pystr) :
  Text.startswith (lit "(") k && Text.endswith (lit ")") k = true
  <-> exists m, k = lit "(" ++ m ++ lit ")".
Proof.
  rewrite andb_true_iff, TextFacts.startswith_spec, TextFacts.endswith_spec.
  split.
  - intros [[t Ht] [t' Ht']]. destruct t' as [|c m].
    + rewrite Ht in Ht'. discriminate.
    + exists m. rewrite Ht' in Ht. injection Ht as -> _. exact Ht'.
  - intros [m ->]. split.
    + now exists (m ++ lit ")").
    + exists (lit "(" ++ m). now rewrite <- app_assoc.
Qed.

Lemma amount_text_wrapped (v : value) (m : pystr) :
  filter (fun c => negb (stripped_from_amounts c)) (py_str v)
  = lit "(" ++ m ++ lit ")" ->
  amount_text v = lit "-" ++ m.
Proof.
  intros H. unfold amount_text. rewrite amount_kept, H.
  replace (Text.startswith _ _ && Text.endswith _ _) with true
    by (symmetry; apply wrapped_in_parentheses; now exists m).
  f_equal. apply TextFacts.slice_inner.
Qed.

Lemma amount_text_plain (v : value) :
  (forall m, filter (fun c => negb (stripped_from_amounts c)) (py_str v)
             <> lit "(" ++ m ++ lit ")") ->
  amount_text v = filter (fun c => negb (stripped_from_amounts c)) (py_str v).
Proof.
  intros H. unfold amount_text. rewrite amount_kept.
  destruct (Text.startswith _ _ && Text.endswith _ _) eqn:E; [|reflexivity].
  apply wrapped_in_parentheses in E. destruct E as [m Hm].
  now elim (H m).
Qed.

Lemma clean_amount_present (v : value) :
  pd_isna v = false -> is_empty_text v = false ->
  clean_amount v = Ret (float_or_zero (amount_text v)).
Proof.
  intros Hna He. unfold clean_amount, py_float, float_or_zero.
  rewrite Hna, He. simpl.
  destruct (float_of_str (amount_text v)); reflexivity.
Qed.

Lemma clean_amount_absent (v : value) :
  pd_isna v = true \/ v = VStr [] -> clean_amount v = Ret float_zero.
Proof.
  intros [H | ->]; unfold clean_amount.
  - now rewrite H.
  - reflexivity.
Qed.

Lemma clean_amount_returns (v : value) : clean_amount v = Ret (amount_of v).
Proof.
  unfold amount_of. destruct (pd_isna v) eqn:Hna.
  - now apply clean_amount_absent; left.
  - destruct (is_empty_text v) eqn:He.
    + unfold clean_amount. now rewrite Hna, He.
    + now apply clean_amount_present.
Qed.

(** C3: a cell that is neither absent nor empty is read as text, every
    [$], [€], [£], [¥], [₹], comma and white-space character is removed
    wherever it stands, and a remainder wrapped in parentheses loses them
    and gets a minus sign before it is parsed; ["$1,234.50"] is parsed as
    [1234.50] and ["(42.00)"] as [-42.00]. *)
Theorem clean_amount_strips_and_negates :
  (forall v, pd_isna v = false -> is_empty_text v = false ->
     let kept := filter (fun c => negb (stripped_from_amounts c)) (py_str v) in
     (forall m, kept = lit "(" ++ m ++ lit ")" ->
        clean_amount v = Ret (float_or_zero (lit "-" ++ m))) /\
     ((forall m, kept <> lit "(" ++ m ++ lit ")") ->
        clean_amount v = Ret (float_or_zero kept)))
  /\ clean_amount (VStr (lit "$1,234.50")) = Ret (float_or_zero (lit "1234.50"))
  /\ clean_amount (VStr (lit "(42.00)")) = Ret (float_or_zero (lit "-42.00")).
Proof.
  split; [|split].
  - intros v Hna He kept. split.
    + intros m Hm. rewrite (clean_amount_present _ Hna He).
      now rewrite (amount_text_wrapped _ _ Hm).
    + intros Hm. rewrite (clean_amount_present _ Hna He).
      now rewrite (amount_text_plain _ Hm).
  - rewrite clean_amount_present by reflexivity.
    rewrite amount_text_plain; [reflexivity|].
    intros m. vm_compute. discriminate.
  - rewrite clean_amount_present by reflexivity.
    now rewrite (amount_text_wrapped (VStr (lit "(42.00)")) (lit "42.00")).
Qed.

(** C7: the Amount Normalizer returns a float on every cell, never an
    error: [0.0] on an absent or empty cell, and [0.0] when the cleaned
    text is no float. *)
Theorem clean_amount_is_total :
  (forall v, exists f, clean_amount v = Ret f) /\
  (forall v, pd_isna v = true \/ v = VStr [] ->
     clean_amount v = Ret float_zero) /\
  (forall v, float_of_str (amount_text v) = None ->
     clean_amount v = Ret float_zero).
Proof.
  split; [|split].
  - intros v. exists (amount_of v). apply clean_amount_returns.
  - exact clean_amount_absent.
  - intros v H. rewrite clean_amount_returns. unfold amount_of, float_or_zero.
    rewrite H. now destruct (pd_isna v || is_empty_text v).
Qed.

Lemma clean_category_returns (v : value) :
  clean_category v = Ret (category_of v).
Proof. unfold clean_category, category_of. now destruct (pd_isna v). Qed.

(** C8: the Category Normalizer turns text into its trimmed, lower-cased
    form, and leaves its own output unchanged.  Lower-casing is the
    interpreter's: it is idempotent and keeps a trimmed text trimmed. *)
Theorem clean_category_idempotent :
  (forall s, lower (lower s) = lower s) ->
  (forall s, Text.strip s = s -> Text.strip (lower s) = lower s) ->
  forall x, exists y,
    clean_category (VStr x) = Ret y /\
    y = lower (Text.strip x) /\
    clean_category (VStr y) = Ret y.
Proof.
  intros Hidem Htrim x. exists (lower (Text.strip x)).
  split; [reflexivity | split; [reflexivity|]].
  unfold clean_category. simpl.
  rewrite (Htrim _ (TextFacts.strip_idempotent x)).
  now rewrite Hidem.
Qed.



Lemma clean_date_returns (v : value) : exists r, clean_date v = Ret r.
Proof.
  unfold clean_date. destruct (pd_isna v || is_empty_text v); [now eexists|].
  destruct (try_date_formats _ _); [now eexists|].
  destruct (to_datetime_infer _); simpl; now eexists.
Qed.


End CleanerFacts.

(** ** Frames *)

Section FrameFacts.

Context {I : Interp}.

Lemma columns_named_app (k : pystr) (df df' : DataFrame) :
  columns_named k (df ++ df') = columns_named k df ++ columns_named k df'.
Proof. unfold columns_named. now rewrite filter_app, map_app. Qed.

Lemma has_label_false (k : pystr) (df : DataFrame) :
  has_label k df = false -> columns_named k df = [].
Proof.
  unfold has_label, columns_named. induction df as [|col df IH]; simpl.
  - reflexivity.
  - intros H. apply orb_false_iff in H. destruct H as [-> H]. now apply IH.
Qed.

Lemma has_label_columns (k : pystr) (df : DataFrame) :
  has_label k df = existsb (fun l => Text.eqb l k) (columns df).
Proof.
  unfold has_label, columns. induction df as [|col df IH]; simpl;
    [reflexivity | now rewrite IH].
Qed.

Lemma length_columns_named (k : pystr) (df : DataFrame) :
  length (columns_named k df)
  = length (filter (fun l => Text.eqb l k) (columns df)).
Proof.
  unfold columns_named, columns. rewrite length_map.
  induction df as [|col df IH]; simpl; [reflexivity|].
  destruct (Text.eqb (fst col) k); simpl; now rewrite IH.
Qed.

(** What is under a label after an assignment. *)
Lemma columns_named_setitem (c k : pystr) (s : Series) (df : DataFrame) :
  columns_named c (setitem df k s)
  = if Text.eqb c k
    then (if has_label k df then map (fun _ => s) (columns_named k df)
          else [s])
    else columns_named c df.
Proof.
  unfold setitem. destruct (has_label k df) eqn:Hk.
  - clear Hk. destruct (Text.eqb c k) eqn:Hck.
    + apply TextFacts.eqb_eq in Hck. subst c.
      unfold columns_named. induction df as [|col df IH]; [reflexivity|].
      simpl. destruct (Text.eqb (fst col) k) eqn:E; simpl; rewrite E; simpl;
        now rewrite IH.
    + apply TextFacts.eqb_neq in Hck.
      unfold columns_named. induction df as [|col df IH]; [reflexivity|].
      simpl. destruct (Text.eqb (fst col) k) eqn:E; simpl.
      * apply TextFacts.eqb_eq in E.
        assert (Text.eqb (fst col) c = false) as ->
          by (apply TextFacts.eqb_neq; congruence).
        exact IH.
      * destruct (Text.eqb (fst col) c); simpl; now rewrite IH.
  - rewrite columns_named_app. unfold columns_named at 2. simpl.
    destruct (Text.eqb c k) eqn:Hck.
    + apply TextFacts.eqb_eq in Hck. subst c.
      now rewrite TextFacts.eqb_refl, (has_label_false _ _ Hk).
    + apply TextFacts.eqb_neq in Hck.
      assert (Text.eqb k c = false) as ->
        by (apply TextFacts.eqb_neq; congruence).
      apply app_nil_r.
Qed.

(** Reading a column after an assignment to another label reads the
    column as it was. *)
Lemma getitem_setitem_other (df : DataFrame) (c k : pystr) (s : Series) :
  Text.eqb c k = false -> getitem (setitem df k s) c = getitem df c.
Proof. intros H. unfold getitem. now rewrite columns_named_setitem, H. Qed.

Lemma columns_setitem (k : pystr) (s : Series) (df : DataFrame) :
  columns (setitem df k s)
  = if has_label k df then columns df else columns df ++ [k].
Proof.
  unfold setitem, columns. destruct (has_label k df).
  - rewrite map_map. apply map_ext. intros col.
    now destruct (Text.eqb (fst col) k).
  - now rewrite map_app.
Qed.

Lemma columns_named_boolean_index (k : pystr) (mask : list bool)
    (df : DataFrame) :
  columns_named k (boolean_index df mask)
  = map (select_rows mask) (columns_named k df).
Proof.
  unfold columns_named, boolean_index, DataFrame, Series in *.
  induction df as [|col df IH]; [reflexivity|].
  simpl. destruct (Text.eqb (fst col) k); simpl; now rewrite IH.
Qed.

Lemma getitem_ret (df : DataFrame) (k : pystr) (s : Series) :
  getitem df k = Ret s <-> columns_named k df = [s].
Proof.
  unfold getitem, one_column.
  destruct (columns_named k df) as [|x [|y l]]; split;
    intros H; try discriminate; congruence.
Qed.

Lemma str_accessor_ret (df : DataFrame) (k : pystr) (s : Series) :
  str_accessor df k = Ret s <-> getitem df k = Ret s.
Proof.
  unfold str_accessor, getitem, one_column.
  destruct (columns_named k df) as [|x [|y l]]; split;
    intros H; try discriminate; exact H.
Qed.

(** Under the label just assigned there are only copies of what was
    assigned. *)
Lemma columns_named_assigned (k : pystr) (s : Series) (df : DataFrame) :
  exists l : list Series,
    columns_named k (setitem df k s) = map (fun _ => s) l.
Proof.
  rewrite columns_named_setitem, TextFacts.eqb_refl.
  destruct (has_label k df); [now exists (columns_named k df)|].
  now exists [s].
Qed.

(** So a column that is read alone there is the one assigned. *)
Lemma getitem_copies (df : DataFrame) (k : pystr) (s s' : Series)
    (l : list Series) :
  columns_named k df = map (fun _ => s) l ->
  getitem df k = Ret s' -> s' = s.
Proof.
  intros Hl Hget. apply getitem_ret in Hget. rewrite Hget in Hl.
  destruct l as [|x l]; [discriminate|]. simpl in Hl. congruence.
Qed.

Lemma select_rows_map {A B} (f : A -> B) (mask : list bool) (l : list A) :
  select_rows mask (map f l) = map f (select_rows mask l).
Proof.
  revert l. induction mask as [|b mask IH]; intros [|x l]; simpl;
    try reflexivity.
  destruct b; simpl; now rewrite IH.
Qed.

Lemma select_rows_filter {A B} (f : A -> bool) (keys : list A)
    (l : list B) :
  select_rows (map f keys) l
  = map snd (filter (fun row => f (fst row)) (combine keys l)).
Proof.
  revert l. induction keys as [|k keys IH]; intros [|x l]; simpl;
    try reflexivity.
  destruct (f k); simpl; now rewrite IH.
Qed.

Lemma map_const_length {A B} (s : B) (l1 l2 : list A) :
  length l1 = length l2 -> map (fun _ => s) l1 = map (fun _ => s) l2.
Proof.
  revert l2. induction l1 as [|x l1 IH]; intros [|y l2] H;
    try discriminate; [reflexivity|].
  simpl. f_equal. apply IH. now injection H.
Qed.

Lemma same_labels_has_label (df1 df2 : DataFrame) (k : pystr) :
  columns df1 = columns df2 -> has_label k df1 = has_label k df2.
Proof. intros H. now rewrite !has_label_columns, H. Qed.

Lemma same_labels_length (df1 df2 : DataFrame) (k : pystr) :
  columns df1 = columns df2 ->
  length (columns_named k df1) = length (columns_named k df2).
Proof. intros H. now rewrite !length_columns_named, H. Qed.

Lemma same_labels_setitem (df1 df2 : DataFrame) (k : pystr)
    (s1 s2 : Series) :
  columns df1 = columns df2 ->
  columns (setitem df1 k s1) = columns (setitem df2 k s2).
Proof.
  intros H. rewrite !columns_setitem.
  now rewrite (same_labels_has_label _ _ k H), H.
Qed.

Lemma setitem_same_agree (df1 df2 : DataFrame) (k : pystr) (s : Series) :
  columns df1 = columns df2 ->
  columns_named k (setitem df1 k s) = columns_named k (setitem df2 k s).
Proof.
  intros H. rewrite !columns_named_setitem, TextFacts.eqb_refl.
  rewrite (same_labels_has_label _ _ k H).
  destruct (has_label k df2); [|reflexivity].
  apply map_const_length. now apply same_labels_length.
Qed.

Lemma setitem_other_agree (df1 df2 : DataFrame) (c k : pystr)
    (s1 s2 : Series) :
  Text.eqb c k = false ->
  columns_named c df1 = columns_named c df2 ->
  columns_named c (setitem df1 k s1) = columns_named c (setitem df2 k s2).
Proof. intros Hck H. now rewrite !columns_named_setitem, Hck. Qed.

Lemma one_column_same_length (l1 l2 : list Series) :
  length l1 = length l2 -> same_outcome (one_column l1) (one_column l2).
Proof.
  destruct l1 as [|x [|y l1]], l2 as [|x' [|y' l2]]; simpl; intros H;
    try discriminate; easy.
Qed.


Lemma filter_all_false {A} (p : A -> bool) (l : list A) :
  (forall y, In y l -> p y = false) -> filter p l = [].
Proof.
  induction l as [|x l IH]; intros H; [reflexivity|].
  simpl. rewrite (H x (or_introl eq_refl)). apply IH.
  intros y Hy. apply H. now right.
Qed.






End FrameFacts.

(** ** The endpoint *)

Section EndpointFacts.

Context {I : Interp} {L : Library}.

Lemma map_res_total {A B} (f : A -> res B) (g : A -> B) (l : list A) :
  (forall x, f x = Ret (g x)) -> map_res f l = Ret (map g l).
Proof.
  intros H. induction l as [|x l IH]; [reflexivity|].
  simpl. now rewrite H, IH.
Qed.

Lemma map_res_clean_date (s : Series) :
  exists cleaned, map_res clean_date s = Ret cleaned.
Proof.
  induction s as [|v s [cleaned IH]]; [now exists []|].
  destruct (clean_date_returns v) as [r Hr].
  exists (r :: cleaned). simpl. now rewrite Hr, IH.
Qed.

(** The keywords are the alternatives of the pattern. *)
Lemma food_pattern_alternatives :
  Re.alternatives (Text.join (lit "|") food_keywords) = food_keywords.
Proof. reflexivity. Qed.

Lemma is_food_spec (category : pystr) :
  is_food category = true <-> contains_one_of food_keywords category.
Proof.
  unfold is_food, Re.search. rewrite food_pattern_alternatives.
  rewrite existsb_exists. unfold contains_one_of, occurs_in.
  split; intros [w [Hin Hw]]; exists w; split; try exact Hin;
    now apply TextFacts.contains_spec.
Qed.

Lemma str_contains_text (cats : list pystr) :
  str_contains (map VStr cats) (Text.join (lit "|") food_keywords)
  = map is_food cats.
Proof. unfold str_contains. rewrite map_map. reflexivity. Qed.

(** Cleaning the date column assigns [clean_date] and nothing else. *)
Lemma clean_date_col_other (date_cols : list pystr) (df df' : DataFrame)
    (k : pystr) :
  clean_date_col date_cols df = Ret df' ->
  Text.eqb k (lit "clean_date") = false ->
  columns_named k df' = columns_named k df.
Proof.
  unfold clean_date_col. intros H Hk.
  destruct (is_nonempty date_cols); [|now injection H as <-].
  destruct (py_index date_cols 0) as [d|]; [|discriminate].
  cbn [bind] in H. destruct (getitem df d) as [s|]; [|discriminate].
  cbn [bind] in H. destruct (map_res_clean_date s) as [cleaned Hc].
  rewrite Hc in H. cbn [bind] in H. injection H as <-.
  now rewrite columns_named_setitem, Hk.
Qed.

(** A successful run, read backwards. *)
Lemma analyze_frame_inv (df : DataFrame) (r : list (pystr * value)) :
  analyze_frame df = Ret r ->
  exists amounts cats,
    cleaned_columns df amounts cats /\
    r = response (series_sum (map VFloat (food_amounts cats amounts))).
Proof.
  unfold analyze_frame.
  destruct (choose_amount_col _) as [a|] eqn:Ha; [|discriminate].
  cbn [bind].
  destruct (choose_category_col _) as [[c|]|] eqn:Hc; try discriminate.
  cbn [bind].
  destruct (getitem (canonicalize df) a) as [sa|] eqn:Hsa; [|discriminate].
  cbn [bind].
  rewrite (map_res_total clean_amount amount_of sa clean_amount_returns).
  cbn [bind].
  set (df1 := setitem (canonicalize df) (lit "clean_amount")
                (map VFloat (map amount_of sa))).
  destruct (getitem df1 c) as [sc|] eqn:Hsc; [|discriminate].
  cbn [bind].
  rewrite (map_res_total clean_category category_of sc clean_category_returns).
  cbn [bind].
  set (df2 := setitem df1 (lit "clean_category")
                (map VStr (map category_of sc))).
  destruct (clean_date_col _ df2) as [df3|] eqn:Hd; [|discriminate].
  cbn [bind].
  destruct (str_accessor df3 (lit "clean_category")) as [s|] eqn:Hs;
    [|discriminate].
  apply str_accessor_ret in Hs. cbn [bind].
  destruct (getitem (boolean_index df3 _) (lit "clean_amount")) as [s'|]
    eqn:Hs'; [|discriminate].
  cbn [bind]. intros [= <-].
  exists (map amount_of sa), (map category_of sc). split.
  - exists a, c, sa, sc. repeat split; try assumption.
    + apply map_res_total, clean_amount_returns.
    + apply map_res_total, clean_category_returns.
  - f_equal. f_equal.
    destruct (columns_named_assigned (lit "clean_category")
                (map VStr (map category_of sc)) df1) as [l2 Hl2].
    destruct (columns_named_assigned (lit "clean_amount")
                (map VFloat (map amount_of sa)) (canonicalize df))
      as [l1 Hl1].
    assert (s = map VStr (map category_of sc)) as ->.
    { apply (getitem_copies df3 (lit "clean_category") _ _ l2); [|exact Hs].
      now rewrite (clean_date_col_other _ _ _ _ Hd). }
    rewrite str_contains_text in Hs'.
    unfold food_amounts.
    rewrite <- (select_rows_filter is_food), <- select_rows_map.
    refine (getitem_copies _ (lit "clean_amount") _ _ l1 _ Hs').
    rewrite columns_named_boolean_index.
    rewrite (clean_date_col_other _ _ _ _ Hd) by reflexivity.
    unfold df2. rewrite columns_named_setitem.
    replace (Text.eqb (lit "clean_amount") (lit "clean_category"))
      with false by reflexivity.
    unfold df1. rewrite Hl1, map_map. reflexivity.
Qed.

Lemma has_any_spec (words : list pystr) (col : pystr) :
  has_any words col = true <-> contains_one_of words col.
Proof.
  unfold has_any, contains_one_of, occurs_in. rewrite existsb_exists.
  split; intros [w [Hin Hw]]; exists w; split; try exact Hin;
    now apply TextFacts.contains_spec.
Qed.

(** C2: on a successful run the amounts that are summed are those of the
    rows whose [clean_category] contains one of the eleven food keywords:
    a row is kept exactly when its category does, whatever its amount or
    date, and an empty category never does. *)
Theorem food_filter_selects_rows (df : DataFrame) (r : list (pystr * value)) :
  analyze_frame df = Ret r ->
  exists amounts cats,
    cleaned_columns df amounts cats /\
    r = response (series_sum (map VFloat (food_amounts cats amounts))) /\
    (forall cat amt,
       In (cat, amt) (combine cats amounts) ->
       (In (cat, amt)
           (filter (fun row => is_food (fst row)) (combine cats amounts))
        <-> contains_one_of food_keywords cat)) /\
    ~ contains_one_of food_keywords [] /\
    food_keywords
    = map lit ["food"; "restaurant"; "grocery"; "dining"; "meal"; "lunch";
               "dinner"; "breakfast"; "cafe"; "fast food";
               "takeout"]%string.
Proof.
  intros H. destruct (analyze_frame_inv _ _ H) as [amounts [cats [Hc Hr]]].
  exists amounts, cats. repeat split; try assumption.
  - intros Hin. apply filter_In in Hin. now apply is_food_spec.
  - intros Hfood. apply filter_In. split; [assumption|].
    now apply is_food_spec.
  - intros Hfood. apply is_food_spec in Hfood. discriminate.
Qed.



(** C9: an upload whose name does not end in [.csv] is refused with
    status 400 before anything is read, decoded or parsed. *)
Theorem non_csv_name_is_refused (file : UploadFile) :
  (forall stem, filename file <> stem ++ lit ".csv") ->
  analyze_csv file
  = ([], Raise (HTTPException 400 (Msg (lit "File must be a CSV")))).
Proof.
  intros H. unfold analyze_csv.
  destruct (Text.endswith (lit ".csv") (filename file)) eqn:E; [|reflexivity].
  apply TextFacts.endswith_spec in E. destruct E as [stem E].
  now elim (H stem).
Qed.

Lemma choose_category_col_none (cols : list pystr) :
  choose_category_col cols = Ret None <-> cols = [].
Proof.
  unfold choose_category_col. split.
  - destruct (filter _ cols) as [|c l] eqn:E; cbn.
    + destruct cols as [|c cols]; [reflexivity | discriminate].
    + discriminate.
  - now intros ->.
Qed.


Lemma columns_canonicalize (df : DataFrame) :
  columns (canonicalize df)
  = map (fun l => lower (Text.strip l)) (columns df).
Proof. unfold canonicalize, columns. rewrite !map_map. reflexivity. Qed.

Lemma filter_first {A} (p : A -> bool) (l : list A) (x : A)
    (rest : list A) :
  filter p l = x :: rest ->
  exists i, nth_error l i = Some x /\ p x = true /\
            forall j y, (j < i)%nat -> nth_error l j = Some y -> p y = false.
Proof.
  induction l as [|a l IH]; [discriminate|].
  simpl. destruct (p a) eqn:Ha.
  - intros [= -> _]. exists 0%nat. repeat split; [exact Ha|]. lia.
  - intros H. destruct (IH H) as [i [Hi [Hx Hbefore]]].
    exists (S i). repeat split; [exact Hi | exact Hx |].
    intros [|j] y Hj Hy.
    + now injection Hy as <-.
    + apply (Hbefore j); [lia | exact Hy].
Qed.

Lemma filter_none {A} (p : A -> bool) (l : list A) :
  filter p l = [] -> forall y, In y l -> p y = false.
Proof.
  induction l as [|a l IH]; [easy|].
  simpl. destruct (p a) eqn:Ha; [discriminate|].
  intros H y [<- | Hy]; [exact Ha | now apply IH].
Qed.

Lemma first_with_word (words cols : list pystr) (c : pystr)
    (rest : list pystr) :
  filter (has_any words) cols = c :: rest ->
  exists i, first_with (contains_one_of words) cols i c.
Proof.
  intros H. destruct (filter_first _ _ _ _ H) as [i [Hi [Hc Hbefore]]].
  exists i. split; [exact Hi|]. split; [now apply has_any_spec|].
  intros j c' Hj Hc' Hw. apply has_any_spec in Hw.
  now rewrite (Hbefore j c' Hj Hc') in Hw.
Qed.

Lemma no_column_with_word (words cols : list pystr) :
  filter (has_any words) cols = [] ->
  forall c, In c cols -> ~ contains_one_of words c.
Proof.
  intros H c Hc Hw. apply has_any_spec in Hw.
  now rewrite (filter_none _ _ H c Hc) in Hw.
Qed.

(** C5: in a table with at least one column, the amount column is the
    first canonical header that contains an amount word, else the second
    column when there are two or more, else the first; the category
    column is the first canonical header that contains a category word,
    else the first column. *)
Theorem column_selection (df : DataFrame) :
  columns df <> [] ->
  let cols := columns (canonicalize df) in
  cols = map (fun l => lower (Text.strip l)) (columns df) /\
  (exists c,
     choose_amount_col cols = Ret c /\
     ((exists i, first_with (contains_one_of amount_words) cols i c) \/
      ((forall c', In c' cols -> ~ contains_one_of amount_words c') /\
       (((1 < length cols)%nat /\ nth_error cols 1 = Some c) \/
        (length cols = 1%nat /\ nth_error cols 0 = Some c))))) /\
  (exists c,
     choose_category_col cols = Ret (Some c) /\
     ((exists i, first_with (contains_one_of category_words) cols i c) \/
      ((forall c', In c' cols -> ~ contains_one_of category_words c') /\
       nth_error cols 0 = Some c))) /\
  amount_words
  = map lit ["amount"; "cost"; "price"; "total"; "spend"; "expense"]%string /\
  category_words = map lit ["category"; "type"; "class"; "group"]%string.
Proof.
  intros Hdf cols.
  assert (cols = map (fun l => lower (Text.strip l)) (columns df)) as Hcols
    by apply columns_canonicalize.
  assert (cols <> []) as Hne.
  { rewrite Hcols. destruct (columns df); [easy | discriminate]. }
  clearbody cols. split; [exact Hcols|]. clear Hcols Hdf.
  split; [|split; [|split; reflexivity]].
  - unfold choose_amount_col.
    destruct (filter (has_any amount_words) cols) as [|c rest] eqn:E.
    + cbn [is_nonempty]. destruct cols as [|c0 [|c1 cols]]; [easy| |].
      * exists c0. split; [reflexivity|]. right.
        split; [now apply no_column_with_word|]. right. now split.
      * exists c1. split; [reflexivity|]. right.
        split; [now apply no_column_with_word|]. left.
        split; [simpl; lia | reflexivity].
    + exists c. split; [reflexivity|]. left. now apply (first_with_word _ _ _ rest).
  - unfold choose_category_col.
    destruct (filter (has_any category_words) cols) as [|c rest] eqn:E.
    + cbn [is_nonempty]. destruct cols as [|c0 cols]; [easy|].
      exists c0. split; [reflexivity|]. right.
      split; [now apply no_column_with_word | reflexivity].
    + exists c. split; [reflexivity|]. left. now apply (first_with_word _ _ _ rest).
Qed.

Lemma clean_date_col_alike (date_cols : list pystr) (df1 df2 : DataFrame) :
  alike df1 df2 ->
  match clean_date_col date_cols df1, clean_date_col date_cols df2 with
  | Ret df1', Ret df2' => alike df1' df2'
  | Raise e1, Raise e2 => e1 = e2
  | _, _ => False
  end.
Proof.
  intros [Hl [Ha Hc]]. unfold clean_date_col.
  destruct (is_nonempty date_cols); [|now repeat split].
  destruct (py_index date_cols 0) as [d|e]; [|reflexivity].
  cbn [bind]. unfold getitem.
  pose proof (one_column_same_length _ _ (same_labels_length _ _ d Hl)) as H.
  destruct (one_column (columns_named d df1)) as [s1|e1],
           (one_column (columns_named d df2)) as [s2|e2];
    try contradiction; [|exact H].
  cbn [bind].
  destruct (map_res_clean_date s1) as [c1 ->].
  destruct (map_res_clean_date s2) as [c2 ->].
  cbn [bind]. split; [now apply same_labels_setitem|].
  split; now apply setitem_other_agree.
Qed.

(** The response is a function of the labels, the amount column and the
    category column. *)
Lemma analyze_frame_date_inert (df1 df2 : DataFrame) :
  columns df1 = columns df2 ->
  (forall a, choose_amount_col (columns (canonicalize df1)) = Ret a ->
     getitem (canonicalize df1) a = getitem (canonicalize df2) a) ->
  (forall c, choose_category_col (columns (canonicalize df1)) = Ret (Some c) ->
     getitem (canonicalize df1) c = getitem (canonicalize df2) c) ->
  analyze_frame df1 = analyze_frame df2.
Proof.
  intros Hl Hamount Hcategory.
  assert (columns (canonicalize df1) = columns (canonicalize df2)) as Hl0.
  { now rewrite !columns_canonicalize, Hl. }
  unfold analyze_frame. rewrite <- Hl0.
  destruct (choose_amount_col _) as [a|e] eqn:Ha; [|reflexivity].
  cbn [bind].
  destruct (choose_category_col _) as [[c|]|e] eqn:Hc; try reflexivity.
  cbn [bind]. rewrite <- (Hamount a eq_refl).
  destruct (getitem (canonicalize df1) a) as [sa|e]; [|reflexivity].
  cbn [bind].
  rewrite (map_res_total clean_amount amount_of sa clean_amount_returns).
  cbn [bind].
  set (X1 := setitem (canonicalize df1) _ _).
  set (X2 := setitem (canonicalize df2) _ _).
  assert (columns X1 = columns X2) as HlX by now apply same_labels_setitem.
  assert (getitem X1 c = getitem X2 c) as HcX.
  { unfold getitem, X1, X2. rewrite !columns_named_setitem.
    destruct (Text.eqb c (lit "clean_amount")).
    - rewrite (same_labels_has_label _ _ _ Hl0).
      destruct (has_label _ (canonicalize df2)); [|reflexivity].
      f_equal. apply map_const_length. now apply same_labels_length.
    - apply (Hcategory c eq_refl). }
  rewrite <- HcX.
  destruct (getitem X1 c) as [sc|e]; [|reflexivity].
  cbn [bind].
  rewrite (map_res_total clean_category category_of sc clean_category_returns).
  cbn [bind].
  set (Y1 := setitem X1 _ _). set (Y2 := setitem X2 _ _).
  assert (alike Y1 Y2) as HY.
  { split; [now apply same_labels_setitem|]. split.
    - apply setitem_other_agree; [reflexivity|].
      now apply setitem_same_agree.
    - now apply setitem_same_agree. }
  pose proof (clean_date_col_alike
                (filter (has_any date_words) (columns (canonicalize df1)))
                Y1 Y2 HY) as Hd.
  destruct (clean_date_col _ Y1) as [Z1|e1], (clean_date_col _ Y2) as [Z2|e2];
    try contradiction; [|now rewrite Hd].
  cbn [bind]. destruct Hd as [HlZ [HaZ HcZ]].
  unfold getitem, str_accessor. rewrite <- HcZ.
  destruct (match columns_named (lit "clean_category") Z1 with
            | [] => Raise (PyExc KeyError)
            | [s] => Ret s
            | _ :: _ :: _ => Raise (PyExc AttributeError)
            end) as [s|e]; [|reflexivity].
  cbn [bind]. now rewrite !columns_named_boolean_index, HaZ.
Qed.

Lemma py_index_head {A} (p : A -> bool) (l : list A) (x : A) :
  py_index (filter p l) 0 = Ret x -> In x l.
Proof.
  unfold py_index. destruct (filter p l) as [|y rest] eqn:E; [discriminate|].
  intros [= ->]. apply (proj1 (filter_In p x l)). rewrite E. now left.
Qed.





(** C10: two uploads of the same name whose tables have the same headers
    and the same amount and category columns get the same outcome,
    whatever their other columns hold, the date column among them. *)
Theorem date_column_is_inert (file1 file2 : UploadFile) (text1 text2 : pystr)
    (df1 df2 : DataFrame) :
  filename file1 = filename file2 ->
  utf8_decode (body file1) = Ret text1 -> read_csv text1 = Ret df1 ->
  utf8_decode (body file2) = Ret text2 -> read_csv text2 = Ret df2 ->
  columns df1 = columns df2 ->
  (forall a, choose_amount_col (columns (canonicalize df1)) = Ret a ->
     getitem (canonicalize df1) a = getitem (canonicalize df2) a) ->
  (forall c, choose_category_col (columns (canonicalize df1)) = Ret (Some c) ->
     getitem (canonicalize df1) c = getitem (canonicalize df2) c) ->
  analyze_csv file1 = analyze_csv file2.
Proof.
  intros Hname Ht1 Hdf1 Ht2 Hdf2 Hl Ha Hc.
  unfold analyze_csv, io_try, io_bind, perform, pure.
  rewrite Hname, Ht1, Hdf1, Ht2, Hdf2.
  now rewrite (analyze_frame_date_inert df1 df2 Hl Ha Hc).
Qed.

End EndpointFacts.

(** ** The reference runtime *)

Module ReferenceFacts.
Import Reference.

(** Rewrites every comparison of the goal whose outcome [lia] decides. *)
Ltac decide_comparisons :=
  repeat match goal with
    | |- context [N.leb ?a ?b] =>
        first [ rewrite (proj2 (N.leb_le a b)) by lia
              | rewrite (proj2 (N.leb_gt a b)) by lia ]
    | |- context [N.eqb ?a ?b] =>
        first [ rewrite (proj2 (N.eqb_eq a b)) by lia
              | rewrite (proj2 (N.eqb_neq a b)) by lia ]
    end.

Lemma lower_char_idempotent (c : codepoint) :
  lower_char (lower_char c) = lower_char c.
Proof.
  unfold lower_char.
  destruct ((65 <=? c) && (c <=? 90))%N eqn:E; [|now rewrite E].
  apply andb_true_iff in E. destruct E as [E1 E2].
  apply N.leb_le in E1, E2. decide_comparisons. reflexivity.
Qed.

Lemma lower_char_isspace (c : codepoint) :
  Text.isspace (lower_char c) = Text.isspace c.
Proof.
  unfold lower_char.
  destruct ((65 <=? c) && (c <=? 90))%N eqn:E; [|reflexivity].
  apply andb_true_iff in E. destruct E as [E1 E2].
  apply N.leb_le in E1, E2.
  unfold Text.isspace. decide_comparisons. reflexivity.
Qed.

Lemma ascii_lower_idempotent (s : pystr) :
  ascii_lower (ascii_lower s) = ascii_lower s.
Proof.
  unfold ascii_lower. rewrite map_map. apply map_ext.
  exact lower_char_idempotent.
Qed.

Lemma ascii_lower_lstrip (s : pystr) :
  Text.lstrip (ascii_lower s) = ascii_lower (Text.lstrip s).
Proof.
  induction s as [|c s IH]; [reflexivity|].
  simpl. rewrite lower_char_isspace. now destruct (Text.isspace c).
Qed.

Lemma ascii_lower_strip (s : pystr) :
  Text.strip (ascii_lower s) = ascii_lower (Text.strip s).
Proof.
  unfold Text.strip, Text.rstrip, ascii_lower.
  fold (ascii_lower s). rewrite ascii_lower_lstrip. unfold ascii_lower.
  rewrite <- map_rev. fold (ascii_lower (rev (Text.lstrip s))).
  rewrite ascii_lower_lstrip. unfold ascii_lower. now rewrite map_rev.
Qed.

Lemma ascii_lower_keeps_trimmed (s : pystr) :
  Text.strip s = s -> Text.strip (ascii_lower s) = ascii_lower s.
Proof. intros H. now rewrite ascii_lower_strip, H. Qed.

(** What the reference runtime reads in the two amounts of the
    specification: 12345 tenths, and minus 42. *)
Example reference_amounts :
  clean_amount (VStr (lit "$1,234.50")) = Ret (binary64 false 12345 (-1)) /\
  clean_amount (VStr (lit "(42.00)")) = Ret (binary64 true 42 0).
Proof. split; reflexivity. Qed.





End ReferenceFacts.

(** ** The properties on the sample uploads *)

Section Samples.

#[local] Existing Instance Reference.interp.
#[local] Existing Instance Reference.library.

(** A wrapped amount with a currency sign, a comma and blanks. *)
Lemma clean_amount_strips_and_negates_witness :
  let v : @value Reference.interp := VStr (lit "$ (1,500.25) ") in
  pd_isna v = false /\ is_empty_text v = false /\
  filter (fun c => negb (stripped_from_amounts c)) (py_str v)
  = lit "(" ++ lit "1500.25" ++ lit ")" /\
  clean_amount v = Ret (float_or_zero (lit "-" ++ lit "1500.25")).
Proof.
  intros v. split; [reflexivity|]. split; [reflexivity|].
  split; [reflexivity|].
  exact (proj1 (proj1 (@clean_amount_strips_and_negates Reference.interp)
                  v eq_refl eq_refl)
           (lit "1500.25") eq_refl).
Defined.

(** A cell that is no number. *)
Lemma clean_amount_is_total_witness :
  let v : @value Reference.interp := VStr (lit "n/a") in
  float_of_str (amount_text v) = None /\ clean_amount v = Ret float_zero.
Proof.
  intros v. split; [reflexivity|].
  exact (proj2 (proj2 (@clean_amount_is_total Reference.interp)) v eq_refl).
Defined.

(** A category with blanks around it and capitals in it. *)
Lemma clean_category_idempotent_witness :
  exists y,
    @clean_category Reference.interp (VStr (lit "  Grocery STORE ")) = Ret y /\
    y = @lower Reference.interp (Text.strip (lit "  Grocery STORE ")) /\
    @clean_category Reference.interp (VStr y) = Ret y.
Proof.
  exact (@clean_category_idempotent Reference.interp
           ReferenceFacts.ascii_lower_idempotent
           ReferenceFacts.ascii_lower_keeps_trimmed
           (lit "  Grocery STORE ")).
Defined.


(** The table of the sample upload: 1234.50 for groceries and -42.00 for
    fast food are summed, 20 for transport is not. *)
Lemma food_filter_selects_rows_witness :
  let df := Reference.table_of Reference.expenses in
  let r := Reference.answer (Reference.binary64 false 11925 (-1)) in
  analyze_frame df = Ret r /\
  exists amounts cats,
    cleaned_columns df amounts cats /\
    r = response (series_sum (map VFloat (food_amounts cats amounts))) /\
    (forall cat amt,
       In (cat, amt) (combine cats amounts) ->
       (In (cat, amt)
           (filter (fun row => is_food (fst row)) (combine cats amounts))
        <-> contains_one_of food_keywords cat)) /\
    ~ contains_one_of food_keywords [] /\
    food_keywords
    = map lit ["food"; "restaurant"; "grocery"; "dining"; "meal"; "lunch";
               "dinner"; "breakfast"; "cafe"; "fast food";
               "takeout"]%string.
Proof.
  intros df r.
  assert (analyze_frame df = Ret r) as H by reflexivity.
  exact (conj H (food_filter_selects_rows df r H)).
Defined.



(** An upload named [report.txt]. *)
Lemma non_csv_name_is_refused_witness :
  (forall stem, filename Reference.report <> stem ++ lit ".csv") /\
  analyze_csv Reference.report
  = ([], Raise (HTTPException 400 (Msg (lit "File must be a CSV")))).
Proof.
  assert (forall stem, filename Reference.report <> stem ++ lit ".csv") as H.
  { intros stem Hstem.
    assert (Text.endswith (lit ".csv") (filename Reference.report) = true)
      as E by (apply TextFacts.endswith_spec; now exists stem).
    change (false = true) in E. discriminate E. }
  exact (conj H (non_csv_name_is_refused Reference.report H)).
Defined.



(** Two columns, neither named after an amount or a category: the second
    is the amount column, the first the category column. *)
Lemma column_selection_witness :
  let cols := columns (canonicalize Reference.ledger) in
  columns Reference.ledger <> [] /\
  cols = [lit "item"; lit "value"] /\
  choose_amount_col cols = Ret (lit "value") /\
  choose_category_col cols = Ret (Some (lit "item")) /\
  exists c,
    choose_amount_col cols = Ret c /\
    ((exists i, first_with (contains_one_of amount_words) cols i c) \/
     ((forall c', In c' cols -> ~ contains_one_of amount_words c') /\
      (((1 < length cols)%nat /\ nth_error cols 1 = Some c) \/
       (length cols = 1%nat /\ nth_error cols 0 = Some c)))).
Proof.
  intros cols.
  assert (columns Reference.ledger <> []) as H by discriminate.
  split; [exact H|]. repeat (split; [reflexivity|]).
  exact (proj1 (proj2 (column_selection Reference.ledger H))).
Defined.

(** The sample upload and the same rows under other dates. *)
Lemma date_column_is_inert_witness :
  let df1 := Reference.table_of Reference.expenses in
  let df2 := Reference.table_of Reference.expenses_redated in
  columns df1 = columns df2 /\
  getitem df1 (lit "Date") <> getitem df2 (lit "Date") /\
  analyze_csv Reference.expenses = analyze_csv Reference.expenses_redated.
Proof.
  intros df1 df2. split; [reflexivity|]. split; [discriminate|].
  refine (date_column_is_inert Reference.expenses Reference.expenses_redated
            (Reference.text_of Reference.expenses)
            (Reference.text_of Reference.expenses_redated)
            df1 df2 eq_refl eq_refl eq_refl eq_refl eq_refl eq_refl _ _).
  - intros a Ha. change (Ret (lit "amount") = Ret a) in Ha.
    injection Ha as <-. reflexivity.
  - intros c Hc. change (Ret (Some (lit "category")) = Ret (Some c)) in Hc.
    injection Hc as <-. reflexivity.
Defined.

End Samples.

(** * Further properties of the cleaners *)

Module StripFacts.
Import Text.

Lemma lstrip_app (x y : pystr) :
  lstrip (x ++ y)
  = match lstrip x with
    | [] => lstrip y
    | _ :: _ => lstrip x ++ y
    end.
Proof.
  induction x as [|c x IH]; [reflexivity|].
  simpl. now destruct (isspace c).
Qed.

Lemma lstrip_spaces (sp y : pystr) :
  (forall c, In c sp -> isspace c = true) -> lstrip (sp ++ y) = lstrip y.
Proof.
  induction sp as [|c sp IH]; intros H; [reflexivity|].
  simpl. rewrite (H c (or_introl eq_refl)). apply IH.
  intros d Hd. apply H. now right.
Qed.

Lemma rstrip_spaces (y sp : pystr) :
  (forall c, In c sp -> isspace c = true) -> rstrip (y ++ sp) = rstrip y.
Proof.
  intros H. unfold rstrip. rewrite rev_app_distr, lstrip_spaces; [reflexivity|].
  intros c Hc. apply H. now apply in_rev.
Qed.

(** White space around a text does not survive trimming. *)
Lemma strip_surrounded (sp x sp' : pystr) :
  (forall c, In c sp -> isspace c = true) ->
  (forall c, In c sp' -> isspace c = true) ->
  strip (sp ++ x ++ sp') = strip x.
Proof.
  intros H H'. unfold strip. rewrite (lstrip_spaces sp _ H), lstrip_app.
  destruct (lstrip x) as [|c l] eqn:E.
  - rewrite <- (app_nil_r sp'), (lstrip_spaces sp' [] H'). reflexivity.
  - now apply rstrip_spaces.
Qed.

End StripFacts.

Section MoreCleanerFacts.

Context {I : Interp}.

(** X1: white space before and after the text of a cell changes neither
    its category nor, when the text itself is not empty, its date. *)
Theorem cleaners_ignore_surrounding_space (sp x sp' : pystr) :
  (forall c, In c sp -> Text.isspace c = true) ->
  (forall c, In c sp' -> Text.isspace c = true) ->
  clean_category (VStr (sp ++ x ++ sp')) = clean_category (VStr x) /\
  (x <> [] -> clean_date (VStr (sp ++ x ++ sp')) = clean_date (VStr x)).
Proof.
  intros H H'. split.
  - unfold clean_category. cbn [pd_isna py_str].
    now rewrite (StripFacts.strip_surrounded sp x sp' H H').
  - intros Hx. unfold clean_date. cbn [pd_isna py_str orb].
    assert (is_empty_text (VStr (sp ++ x ++ sp')) = false) as ->
      by (destruct sp; [destruct x; [contradiction|] |]; reflexivity).
    assert (is_empty_text (VStr x) = false) as ->
      by (destruct x; [contradiction | reflexivity]).
    now rewrite (StripFacts.strip_surrounded sp x sp' H H').
Qed.

(** X2: two texts that differ only in currency signs, commas and white
    space are the same amount. *)
Theorem clean_amount_ignores_noise (s t : pystr) :
  s <> [] -> t <> [] ->
  filter (fun c => negb (stripped_from_amounts c)) s
  = filter (fun c => negb (stripped_from_amounts c)) t ->
  clean_amount (VStr s) = clean_amount (VStr t).
Proof.
  intros Hs Ht H.
  rewrite !clean_amount_present;
    try reflexivity;
    try (destruct s; [contradiction | reflexivity]);
    try (destruct t; [contradiction | reflexivity]).
  do 2 f_equal. unfold amount_text. rewrite !amount_kept.
  cbn [py_str]. now rewrite H.
Qed.

(** X3: an amount in parentheses is the amount with a minus sign. *)
Theorem parentheses_mean_minus (m : pystr) :
  clean_amount (VStr (lit "(" ++ m ++ lit ")"))
  = clean_amount (VStr (lit "-" ++ m)).
Proof.
  rewrite !clean_amount_present by reflexivity. do 2 f_equal.
  set (kept := filter (fun c => negb (stripped_from_amounts c)) m).
  rewrite (amount_text_wrapped _ kept).
  - rewrite amount_text_plain; [reflexivity|].
    intros m'. cbn [py_str]. discriminate.
  - cbn [py_str]. rewrite !filter_app. reflexivity.
Qed.

Lemma digits_of_uint (d : Decimal.uint) (c : codepoint) :
  In c (lit (NilEmpty.string_of_uint d)) -> (48 <= c <= 57)%N.
Proof.
  induction d; simpl; try contradiction;
    (intros [<- | H]; [lia | now apply IHd]).
Qed.

(** The decimal text of an integer is digits after an optional minus
    sign. *)
Lemma of_Z_chars (z : Z) (c : codepoint) :
  In c (Text.of_Z z) -> c = 45%N \/ (48 <= c <= 57)%N.
Proof.
  unfold Text.of_Z, NilZero.string_of_int, NilZero.string_of_uint.
  destruct (Z.to_int z) as [d|d].
  - destruct d; simpl;
      try (intros [<- | H];
           [right; lia | try contradiction; right;
                         now apply (digits_of_uint d)]).
  - destruct d; simpl;
      try (intros [<- | [<- | H]];
           [now left | right; lia | try contradiction; right;
                                    now apply (digits_of_uint d)]).
Qed.

Lemma plain_char_kept (c : codepoint) :
  c = 45%N \/ (48 <= c <= 57)%N -> stripped_from_amounts c = false.
Proof.
  intros H. unfold stripped_from_amounts, Text.isspace. cbn [existsb].
  ReferenceFacts.decide_comparisons.
  destruct H as [-> | H]; [reflexivity|].
  ReferenceFacts.decide_comparisons. reflexivity.
Qed.

(** X4: an integer cell, as pandas infers for a column of whole numbers,
    is the amount its decimal text denotes: nothing is stripped from it. *)
Theorem clean_amount_of_integer (z : Z) :
  clean_amount (VInt z) = Ret (float_or_zero (Text.of_Z z)).
Proof.
  rewrite clean_amount_present by reflexivity. do 2 f_equal.
  assert (filter (fun c => negb (stripped_from_amounts c)) (Text.of_Z z)
          = Text.of_Z z) as Hkept.
  { apply forallb_filter_id. apply forallb_forall. intros c Hc.
    now rewrite (plain_char_kept c (of_Z_chars z c Hc)). }
  rewrite amount_text_plain; cbn [py_str]; rewrite Hkept; [reflexivity|].
  intros m Hm.
  assert (In 40%N (Text.of_Z z)) as Hin by (rewrite Hm; now left).
  apply of_Z_chars in Hin. destruct Hin as [Hin | Hin]; [discriminate | lia].
Qed.

End MoreCleanerFacts.

Section MoreDateFacts.

Context {I : Interp}.

Lemma try_date_formats_some (fmts : list pystr) (s : pystr) (t : datetime) :
  try_date_formats fmts s = Some t ->
  exists i fmt,
    nth_error fmts i = Some fmt /\ to_datetime_format s fmt = Ret t /\
    forall j fmt', (j < i)%nat -> nth_error fmts j = Some fmt' ->
                   exists e, to_datetime_format s fmt' = Raise e.
Proof.
  induction fmts as [|f fmts IH]; [discriminate|].
  simpl. destruct (to_datetime_format s f) as [t'|e] eqn:E.
  - intros [= ->]. exists 0%nat, f. repeat split; [exact E|]. lia.
  - intros H. destruct (IH H) as [i [fmt [Hi [Hok Hbefore]]]].
    exists (S i), fmt. repeat split; [exact Hi | exact Hok |].
    intros [|j] fmt' Hj Hfmt'.
    + injection Hfmt' as <-. now exists e.
    + apply (Hbefore j); [lia | exact Hfmt'].
Qed.

Lemma try_date_formats_all_raise (fmts : list pystr) (s : pystr) :
  try_date_formats fmts s = None ->
  forall fmt, In fmt fmts -> exists e, to_datetime_format s fmt = Raise e.
Proof.
  induction fmts as [|f fmts IH]; [easy|].
  simpl. destruct (to_datetime_format s f) as [t'|e] eqn:E; [discriminate|].
  intros H fmt [<- | Hin]; [now exists e | now apply IH].
Qed.

(** X5: the Date Normalizer invents nothing.  A timestamp it returns is
    what the first format that parses gave, or, when no format parses,
    what the generic inference gave; and it returns [None] only for an
    absent or empty cell or when the formats and the inference all
    raise. *)
Theorem clean_date_sound (v : value) :
  (forall t, clean_date v = Ret (Some t) ->
     pd_isna v = false /\ is_empty_text v = false /\
     let s := Text.strip (py_str v) in
     (exists i fmt,
        nth_error date_formats i = Some fmt /\
        to_datetime_format s fmt = Ret t /\
        forall j fmt', (j < i)%nat -> nth_error date_formats j = Some fmt' ->
                       exists e, to_datetime_format s fmt' = Raise e)
     \/
     ((forall fmt, In fmt date_formats ->
         exists e, to_datetime_format s fmt = Raise e) /\
      to_datetime_infer s = Ret t)) /\
  (clean_date v = Ret None ->
     pd_isna v = true \/ v = VStr [] \/
     let s := Text.strip (py_str v) in
     (forall fmt, In fmt date_formats ->
        exists e, to_datetime_format s fmt = Raise e) /\
     exists e, to_datetime_infer s = Raise e).
Proof.
  unfold clean_date. destruct (pd_isna v) eqn:Hna; cbn [orb].
  - split; [discriminate | now left].
  - destruct (is_empty_text v) eqn:He.
    + split; [discriminate|]. intros _. right. left.
      destruct v as [|[|c s]| | | |]; try discriminate. reflexivity.
    + destruct (try_date_formats date_formats _) as [t0|] eqn:E.
      * split; [|discriminate]. intros t [= ->].
        split; [reflexivity|]. split; [reflexivity|]. left.
        now apply try_date_formats_some.
      * pose proof (try_date_formats_all_raise _ _ E) as Hall.
        destruct (to_datetime_infer _) as [t0|e] eqn:Hinf; cbn.
        -- split; [|discriminate]. intros t [= ->].
           split; [reflexivity|]. split; [reflexivity|]. right.
           now split.
        -- split; [discriminate|]. intros _. right. right.
           split; [exact Hall | now exists e].
Qed.

End MoreDateFacts.

(** * Further properties of the endpoint *)

Section MoreEndpointFacts.

Context {I : Interp} {L : Library}.

Lemma map_res_length {A B} (f : A -> res B) (l : list A) (l' : list B) :
  map_res f l = Ret l' -> length l' = length l.
Proof.
  revert l'. induction l as [|x l IH]; intros l'; simpl.
  - now intros [= <-].
  - destruct (f x) as [y|]; [|discriminate]. cbn [bind].
    destruct (map_res f l) as [ys|]; [|discriminate]. cbn [bind].
    intros [= <-]. simpl. f_equal. now apply IH.
Qed.

Lemma getitem_well_formed (n : nat) (df : DataFrame) (k : pystr)
    (s : Series) :
  well_formed n df -> getitem df k = Ret s -> length s = n.
Proof.
  intros Hwf H. apply getitem_ret in H.
  assert (In s (columns_named k df)) as Hin by (rewrite H; now left).
  unfold columns_named in Hin. apply in_map_iff in Hin.
  destruct Hin as [col [<- Hcol]]. apply filter_In in Hcol.
  exact (proj1 (Forall_forall _ _) Hwf col (proj1 Hcol)).
Qed.

Lemma canonicalize_well_formed (n : nat) (df : DataFrame) :
  well_formed n df -> well_formed n (canonicalize df).
Proof.
  unfold well_formed, canonicalize. intros H. apply Forall_map.
  exact H.
Qed.

Lemma setitem_well_formed (n : nat) (df : DataFrame) (k : pystr)
    (s : Series) :
  well_formed n df -> length s = n -> well_formed n (setitem df k s).
Proof.
  unfold well_formed, setitem. intros H Hs. destruct (has_label k df).
  - apply Forall_map. apply (Forall_impl _ (P := fun col => length (snd col) = n));
      [|exact H].
    intros col Hcol. destruct (Text.eqb _ k); cbn; assumption.
  - apply Forall_app. split; [exact H|]. now repeat constructor.
Qed.

(** The cleaned columns have one entry for each row of the table. *)
Lemma cleaned_columns_lengths (n : nat) (df : DataFrame)
    (amounts : list float) (cats : list pystr) :
  well_formed n df -> cleaned_columns df amounts cats ->
  length amounts = n /\ length cats = n.
Proof.
  intros Hwf [a [c [sa [sc [_ [_ [Hsa [Hamounts [Hsc Hcats]]]]]]]]].
  apply canonicalize_well_formed in Hwf.
  assert (length amounts = n) as Hn.
  { rewrite (map_res_length _ _ _ Hamounts).
    exact (getitem_well_formed n _ a sa Hwf Hsa). }
  split; [exact Hn|].
  rewrite (map_res_length _ _ _ Hcats).
  refine (getitem_well_formed n _ c sc _ Hsc).
  apply setitem_well_formed; [exact Hwf|]. now rewrite length_map.
Qed.

Lemma filter_combine_length {A B} (p : A -> bool) (l : list A)
    (l' : list B) :
  length l = length l' ->
  length (filter (fun row => p (fst row)) (combine l l'))
  = length (filter p l).
Proof.
  revert l'. induction l as [|x l IH]; intros [|y l'] H;
    try discriminate; [reflexivity|].
  simpl. destruct (p x); simpl; rewrite IH; auto.
Qed.



(** X7: in a table of [n] rows the [clean_amount] and [clean_category]
    columns have [n] entries each, and as many amounts are summed as
    there are food categories. *)
Theorem cleaned_columns_cover_rows (n : nat) (df : DataFrame)
    (amounts : list float) (cats : list pystr) :
  well_formed n df -> cleaned_columns df amounts cats ->
  length amounts = n /\ length cats = n /\
  length (food_amounts cats amounts) = length (filter is_food cats) /\
  (length (food_amounts cats amounts) <= n)%nat.
Proof.
  intros Hwf Hc.
  destruct (cleaned_columns_lengths n df amounts cats Hwf Hc) as [Ha Hk].
  split; [exact Ha|]. split; [exact Hk|].
  assert (length (food_amounts cats amounts) = length (filter is_food cats))
    as Hlen.
  { unfold food_amounts. rewrite length_map.
    apply filter_combine_length. congruence. }
  split; [exact Hlen|]. rewrite Hlen, <- Hk. apply filter_length_le.
Qed.

(** The cleaned columns of a frame are determined by the frame. *)
Lemma cleaned_columns_unique (df : DataFrame) (amounts amounts' : list float)
    (cats cats' : list pystr) :
  cleaned_columns df amounts cats -> cleaned_columns df amounts' cats' ->
  amounts' = amounts /\ cats' = cats.
Proof.
  intros [a [c [sa [sc [Ha [Hc [Hsa [Hamounts [Hsc Hcats]]]]]]]]]
         [a' [c' [sa' [sc' [Ha' [Hc' [Hsa' [Hamounts' [Hsc' Hcats']]]]]]]]].
  rewrite Ha in Ha'. injection Ha' as <-.
  rewrite Hc in Hc'. injection Hc' as <-.
  rewrite Hsa in Hsa'. injection Hsa' as <-.
  rewrite Hamounts in Hamounts'. injection Hamounts' as <-.
  rewrite Hsc in Hsc'. injection Hsc' as <-.
  rewrite Hcats in Hcats'. injection Hcats' as <-.
  now split.
Qed.

(** X8: when no category of the table is food, no amount is handed to
    [sum]: the answer is [round(x, 2)] of the total of the empty
    series. *)
Theorem no_food_sums_nothing (df : DataFrame) (r : list (pystr * value))
    (amounts : list float) (cats : list pystr) :
  analyze_frame df = Ret r ->
  cleaned_columns df amounts cats ->
  (forall cat, In cat cats -> ~ contains_one_of food_keywords cat) ->
  food_amounts cats amounts = [] /\ r = response (series_sum []).
Proof.
  intros Hr Hc H.
  destruct (analyze_frame_inv df r Hr) as [amounts' [cats' [Hc' ->]]].
  destruct (cleaned_columns_unique _ _ _ _ _ Hc Hc') as [-> ->].
  assert (food_amounts cats amounts = []) as Hnone.
  { unfold food_amounts. rewrite filter_all_false; [reflexivity|].
    intros [cat amt] Hin. cbn [fst].
    apply not_true_is_false. intros Hfood.
    apply (H cat); [exact (in_combine_l _ _ _ _ Hin)|].
    now apply is_food_spec. }
  split; [exact Hnone|]. now rewrite Hnone.
Qed.


(** X9: the categories are the Category Normalizer applied to the raw
    category column, unless that column is the one labelled
    [clean_amount]: it has been overwritten when it is read, and the
    categories are then made from the cleaned amounts. *)
Theorem category_column_source (df : DataFrame) (amounts : list float)
    (cats : list pystr) :
  cleaned_columns df amounts cats ->
  exists c sc,
    choose_category_col (columns (canonicalize df)) = Ret (Some c) /\
    map_res clean_category sc = Ret cats /\
    (c <> lit "clean_amount" -> getitem (canonicalize df) c = Ret sc) /\
    (c = lit "clean_amount" -> sc = map VFloat amounts).
Proof.
  intros [a [c [sa [sc [_ [Hc [_ [_ [Hsc Hcats]]]]]]]]].
  exists c, sc. split; [exact Hc|]. split; [exact Hcats|]. split.
  - intros Hne. etransitivity; [|exact Hsc]. symmetry.
    apply getitem_setitem_other. now apply TextFacts.eqb_neq.
  - intros ->.
    destruct (columns_named_assigned (lit "clean_amount")
                (map VFloat amounts) (canonicalize df)) as [l Hl].
    exact (getitem_copies _ _ _ _ l Hl Hsc).
Qed.

(** X10: with a [.csv] name, whatever goes wrong is answered with status
    500 carrying the original exception: a body that is not UTF-8 (the
    text is then never parsed), a text that is not a table, a table the
    pipeline fails on.  Only what is not an [Exception] passes through. *)
Theorem failures_become_500 (file : UploadFile) :
  Text.endswith (lit ".csv") (filename file) = true ->
  let wrapped (e : exc) : res (list (pystr * value)) :=
    Raise (if isinstance e Exception
           then HTTPException 500 (MsgOf (lit "Error processing CSV: ") e)
           else e) in
  (forall e, utf8_decode (body file) = Raise e ->
     analyze_csv file = ([FileRead; Utf8Decode], wrapped e)) /\
  (forall text e,
     utf8_decode (body file) = Ret text -> read_csv text = Raise e ->
     analyze_csv file = ([FileRead; Utf8Decode; ReadCsv], wrapped e)) /\
  (forall text df e,
     utf8_decode (body file) = Ret text -> read_csv text = Ret df ->
     analyze_frame df = Raise e ->
     analyze_csv file = ([FileRead; Utf8Decode; ReadCsv], wrapped e)).
Proof.
  intros Hname wrapped. unfold wrapped, analyze_csv, io_try, io_bind, perform, pure.
  rewrite Hname. cbn [negb]. split; [|split].
  - intros e ->. now destruct (isinstance e Exception).
  - intros text e -> ->. now destruct (isinstance e Exception).
  - intros text df e -> -> ->. now destruct (isinstance e Exception).
Qed.

(** X11: a request ends in one of four ways: a response; status 400 for
    the file name, with nothing read; status 500 wrapping an [Exception];
    or an exception that is not an [Exception], as it was raised.  No
    [ValueError], [IndexError] or the like ever reaches the caller bare. *)
Theorem request_outcomes (file : UploadFile) (log : list event) (e : exc) :
  analyze_csv file = (log, Raise e) ->
  (e = HTTPException 400 (Msg (lit "File must be a CSV")) /\ log = [] /\
   Text.endswith (lit ".csv") (filename file) = false) \/
  (exists e0,
     e = HTTPException 500 (MsgOf (lit "Error processing CSV: ") e0) /\
     isinstance e0 Exception = true /\
     Text.endswith (lit ".csv") (filename file) = true) \/
  (isinstance e Exception = false /\
   Text.endswith (lit ".csv") (filename file) = true).
Proof.
  unfold analyze_csv, io_try, io_bind, perform, pure.
  destruct (Text.endswith _ _); cbn [negb].
  - destruct (utf8_decode (body file)) as [text|e1].
    + destruct (read_csv text) as [df|e1].
      * destruct (analyze_frame df) as [r|e1]; [discriminate|].
        destruct (isinstance e1 Exception) eqn:E; cbn; intros [= <- <-].
        -- right. left. now exists e1.
        -- right. right. now split.
      * destruct (isinstance e1 Exception) eqn:E; cbn; intros [= <- <-].
        -- right. left. now exists e1.
        -- right. right. now split.
    + destruct (isinstance e1 Exception) eqn:E; cbn; intros [= <- <-].
      * right. left. now exists e1.
      * right. right. now split.
  - intros [= <- <-]. left. now repeat split.
Qed.

End MoreEndpointFacts.

(** ** The further properties on sample inputs *)

Section MoreSamples.

#[local] Existing Instance Reference.interp.
#[local] Existing Instance Reference.library.

(** Two blanks before and a tab after a category and a date. *)
Lemma cleaners_ignore_surrounding_space_witness :
  let sp : pystr := [32; 32]%N in
  let sp' : pystr := [9]%N in
  (forall c, In c sp -> Text.isspace c = true) /\
  (forall c, In c sp' -> Text.isspace c = true) /\
  clean_category (VStr (sp ++ lit "Dining Out" ++ sp'))
  = clean_category (VStr (lit "Dining Out")) /\
  clean_date (VStr (sp ++ lit "2024-01-05" ++ sp'))
  = clean_date (VStr (lit "2024-01-05")).
Proof.
  intros sp sp'.
  assert (forall c, In c sp -> Text.isspace c = true) as H
    by (intros c [<- | [<- | []]]; reflexivity).
  assert (forall c, In c sp' -> Text.isspace c = true) as H'
    by (intros c [<- | []]; reflexivity).
  split; [exact H|]. split; [exact H'|].
  pose proof (cleaners_ignore_surrounding_space sp (lit "Dining Out") sp' H H')
    as Hcat.
  split; [exact (proj1 Hcat)|].
  refine (proj2 (cleaners_ignore_surrounding_space
                   sp (lit "2024-01-05") sp' H H') _).
  discriminate.
Defined.

(** The same amount written with a dollar sign and a comma, and with
    blanks. *)
Lemma clean_amount_ignores_noise_witness :
  let s := lit "$1,234.50" in
  let t := lit " 1 234.50 " in
  s <> [] /\ t <> [] /\
  filter (fun c => negb (stripped_from_amounts c)) s
  = filter (fun c => negb (stripped_from_amounts c)) t /\
  clean_amount (VStr s) = clean_amount (VStr t).
Proof.
  intros s t.
  assert (s <> []) as Hs by discriminate.
  assert (t <> []) as Ht by discriminate.
  split; [exact Hs|]. split; [exact Ht|]. split; [reflexivity|].
  exact (clean_amount_ignores_noise s t Hs Ht eq_refl).
Defined.

(** A date with a time of day: no format reads it, the inference does. *)
Lemma clean_date_sound_witness :
  let v : value := VStr (lit "2024-01-05 10:30:00") in
  let t : Reference.timestamp :=
    Some {| Reference.year := 2024; Reference.month := 1; Reference.day := 5;
            Reference.hour := 10; Reference.minute := 30;
            Reference.second := 0 |} in
  clean_date v = Ret (Some t) /\
  (forall fmt, In fmt date_formats ->
     exists e, to_datetime_format (Text.strip (py_str v)) fmt = Raise e) /\
  to_datetime_infer (Text.strip (py_str v)) = Ret t.
Proof.
  intros v t.
  assert (clean_date v = Ret (Some t)) as H by reflexivity.
  split; [exact H|].
  destruct (proj2 (proj2 (proj1 (clean_date_sound v) t H)))
    as [[i [fmt [Hi [Hok _]]]] | Hinf].
  - exfalso. do 13 (destruct i as [|i]; [injection Hi as <-; discriminate Hok|]).
    destruct i; discriminate Hi.
  - exact Hinf.
Defined.


Lemma ledger_cleaned :
  cleaned_columns Reference.ledger
    [Reference.binary64 false 12 0; Reference.binary64 false 3 0]
    [lit "lunch"; lit "bus"].
Proof.
  exists (lit "value"), (lit "item"), [VInt 12; VInt 3],
    [VStr (lit "lunch"); VStr (lit "bus")].
  repeat split; reflexivity.
Qed.

Lemma ledger_well_formed : well_formed 2 Reference.ledger.
Proof. repeat constructor. Qed.

(** Two rows, two amounts, two categories; one of them is food. *)
Lemma cleaned_columns_cover_rows_witness :
  let amounts := [Reference.binary64 false 12 0; Reference.binary64 false 3 0] in
  let cats := [lit "lunch"; lit "bus"] in
  well_formed 2 Reference.ledger /\
  cleaned_columns Reference.ledger amounts cats /\
  length amounts = 2%nat /\ length cats = 2%nat /\
  length (food_amounts cats amounts) = length (filter is_food cats) /\
  (length (food_amounts cats amounts) <= 2)%nat.
Proof.
  intros amounts cats.
  exact (conj ledger_well_formed
           (conj ledger_cleaned
              (cleaned_columns_cover_rows 2 Reference.ledger amounts cats
                 ledger_well_formed ledger_cleaned))).
Defined.

Lemma fares_cleaned :
  cleaned_columns Reference.fares
    [Reference.binary64 false 3 0; Reference.binary64 false 700 0]
    [lit "bus"; lit "rent"].
Proof.
  exists (lit "paid"), (lit "what"), [VInt 3; VInt 700],
    [VStr (lit "bus"); VStr (lit "rent")].
  repeat split; reflexivity.
Qed.

(** A table of fares and rent: nothing is summed, and the answer is
    0.0. *)
Lemma no_food_sums_nothing_witness :
  let r := Reference.answer (S754_zero false) in
  let amounts : list float :=
    [Reference.binary64 false 3 0; Reference.binary64 false 700 0] in
  let cats := [lit "bus"; lit "rent"] in
  analyze_frame Reference.fares = Ret r /\
  cleaned_columns Reference.fares amounts cats /\
  (forall cat, In cat cats -> ~ contains_one_of food_keywords cat) /\
  food_amounts cats amounts = [] /\ r = response (series_sum []).
Proof.
  intros r amounts cats.
  assert (analyze_frame Reference.fares = Ret r) as H by reflexivity.
  assert (forall cat, In cat cats -> ~ contains_one_of food_keywords cat)
    as Hnone.
  { intros cat [<-|[<-|[]]] Hfood; apply is_food_spec in Hfood;
      discriminate Hfood. }
  exact (conj H
           (conj fares_cleaned
              (conj Hnone
                 (no_food_sums_nothing Reference.fares r amounts cats
                    H fares_cleaned Hnone)))).
Defined.




(** A table whose only column is headed [Clean_Amount]: the categories are
    the texts of the cleaned amounts, not the cells. *)
Lemma category_column_source_witness :
  let df : DataFrame := [(lit "Clean_Amount", [VStr (lit "food"); VInt 7])] in
  let amounts : list float :=
    [S754_zero false; Reference.binary64 false 7 0] in
  let cats := [lit "0.0"; lit "7.0"] in
  cleaned_columns df amounts cats /\
  exists c sc,
    choose_category_col (columns (canonicalize df)) = Ret (Some c) /\
    map_res clean_category sc = Ret cats /\
    (c <> lit "clean_amount" -> getitem (canonicalize df) c = Ret sc) /\
    (c = lit "clean_amount" -> sc = map VFloat amounts).
Proof.
  intros df amounts cats.
  assert (cleaned_columns df amounts cats) as H.
  { exists (lit "clean_amount"), (lit "clean_amount"),
      [VStr (lit "food"); VInt 7], (map VFloat amounts).
    repeat split; reflexivity. }
  exact (conj H (category_column_source df amounts cats H)).
Defined.

(** A body that is not UTF-8 under a CSV name. *)
Lemma failures_become_500_witness :
  let file := {| filename := lit "bad.csv"; body := [255%N] |} in
  Text.endswith (lit ".csv") (filename file) = true /\
  utf8_decode (body file) = Raise (PyExc UnicodeDecodeError) /\
  analyze_csv file
  = ([FileRead; Utf8Decode],
     Raise (HTTPException 500
              (MsgOf (lit "Error processing CSV: ")
                 (PyExc UnicodeDecodeError)))).
Proof.
  intros file. split; [reflexivity|]. split; [reflexivity|].
  exact (proj1 (failures_become_500 file eq_refl)
           (PyExc UnicodeDecodeError) eq_refl).
Defined.

(** The empty upload ends with status 500. *)
Lemma request_outcomes_witness :
  let log := [FileRead; Utf8Decode; ReadCsv] in
  let e := HTTPException 500
             (MsgOf (lit "Error processing CSV: ") (PyExc EmptyDataError)) in
  analyze_csv Reference.empty_upload = (log, Raise e) /\
  ((e = HTTPException 400 (Msg (lit "File must be a CSV")) /\ log = [] /\
    Text.endswith (lit ".csv") (filename Reference.empty_upload) = false) \/
   (exists e0,
      e = HTTPException 500 (MsgOf (lit "Error processing CSV: ") e0) /\
      isinstance e0 Exception = true /\
      Text.endswith (lit ".csv") (filename Reference.empty_upload) = true) \/
   (isinstance e Exception = false /\
    Text.endswith (lit ".csv") (filename Reference.empty_upload) = true)).
Proof.
  intros log e.
  assert (analyze_csv Reference.empty_upload = (log, Raise e)) as H
    by reflexivity.
  exact (conj H (request_outcomes Reference.empty_upload log e H)).
Defined.

End MoreSamples.
